(** * Line-crossing counter of the vehicle detection system

    A shallow embedding of [src/utils.py] ([line_intersection]) and of
    [src/line_counter.py] ([CrossingEvent], [LineCounter]) together with the
    records of [src/config.py] and [src/tracker.py] that they consume.

    Conventions of the embedding:
    - Python numbers are duck-typed.  The arithmetic the counter performs
      ([-], [*], [>], [<]) is collected in the class [PyNumber], with one
      instance for Python [int] (unbounded, modelled by [Z]) and one for
      Python [float] (IEEE 754 binary64, modelled by Rocq's primitive
      floats, which include the infinities and NaN).  Integer line
      coordinates meet float centroids only in subtractions from which a
      centroid coordinate is taken away, where Python converts them to
      float: the float instance covers that case with the line given in
      floats.
    - [dict] is [gmap], [set] is [gset], [list] is [list].
    - [datetime.now()] is the only input the counter reads besides its
      arguments; it is modelled by an explicit [Clock] threaded through
      the methods that read it.  Output written with [print] is not
      modelled.
    - A Python exception is the [Raise] branch of [result]. *)

From Stdlib Require Import ZArith List String Bool Lia Permutation.
From Stdlib Require Import Floats.
From stdpp Require Import base gmap strings list fin_maps.
Import ListNotations.

#[local] Set Warnings "-clear-no-such-hyp".

Local Open Scope Z_scope.
Local Open Scope string_scope.
Local Open Scope list_scope.

(** ** Python numbers *)

Class PyNumber (T : Type) := {
  num_sub : T -> T -> T;      (* a - b *)
  num_mul : T -> T -> T;      (* a * b *)
  num_gt  : T -> T -> bool;   (* a > b *)
  num_lt  : T -> T -> bool    (* a < b *)
}.

#[global] Instance PyInt : PyNumber Z := {
  num_sub := Z.sub;
  num_mul := Z.mul;
  num_gt  := Z.gtb;
  num_lt  := Z.ltb
}.

(* IEEE comparisons: [a > b] is [b < a], false as soon as one side is NaN. *)
#[global] Instance PyFloat : PyNumber float := {
  num_sub := PrimFloat.sub;
  num_mul := PrimFloat.mul;
  num_gt  := fun a b => PrimFloat.ltb b a;
  num_lt  := PrimFloat.ltb
}.

(** ** src/utils.py *)

Section Utils.
Context {T : Type} `{PyNumber T}.

(* def ccw(A, B, C):
       return (C[1] - A[1]) * (B[0] - A[0]) > (B[1] - A[1]) * (C[0] - A[0]) *)
Definition ccw (A B C : T * T) : bool :=
  num_gt (num_mul (num_sub (snd C) (snd A)) (num_sub (fst B) (fst A)))
         (num_mul (num_sub (snd B) (snd A)) (num_sub (fst C) (fst A))).

(* return ccw(A, C, D) != ccw(B, C, D) and ccw(A, B, C) != ccw(A, B, D) *)
Definition line_intersection (p1 p2 line_start line_end : T * T) : bool :=
  let A := p1 in
  let B := p2 in
  let C := line_start in
  let D := line_end in
  negb (Bool.eqb (ccw A C D) (ccw B C D)) &&
  negb (Bool.eqb (ccw A B C) (ccw A B D)).
End Utils.

(** ** Exceptions *)

Inductive exn := ValueError | OverflowError.

Inductive result (A : Type) :=
  | Ok (a : A)
  | Raise (e : exn).
Arguments Ok {A} a.
Arguments Raise {A} e.

(** ** The wall clock

    [datetime.now().strftime("%Y-%m-%d %H:%M:%S.%f")[:-3]] yields a string;
    the clock is the stream of the strings successive reads return. *)

Definition Clock := nat -> string.

Definition now (clk : Clock) : string * Clock :=
  (clk 0%nat, fun n => clk (S n)).

(** ** src/config.py, src/tracker.py: the records the counter reads *)

Record LineConfig (T : Type) := {
  coordinates : list T;
  direction : string
}.
Arguments coordinates {T} _.
Arguments direction {T} _.

(* Of [AppConfig] the counter reads the [line] section only. *)
Record AppConfig (T : Type) := {
  line : LineConfig T
}.
Arguments line {T} _.

Record TrackedObject (T : Type) := {
  track_id : Z;
  bbox : list T;
  confidence : T;
  class_id : Z;
  class_name : string;
  centroid : T * T
}.
Arguments track_id {T} _.
Arguments bbox {T} _.
Arguments confidence {T} _.
Arguments class_id {T} _.
Arguments class_name {T} _.
Arguments centroid {T} _.

(** ** src/line_counter.py *)

Record CrossingEvent (T : Type) := {
  ev_track_id : Z;
  ev_timestamp : string;
  ev_direction : string;
  ev_class_name : string;
  ev_centroid : T * T
}.
Arguments ev_track_id {T} _.
Arguments ev_timestamp {T} _.
Arguments ev_direction {T} _.
Arguments ev_class_name {T} _.
Arguments ev_centroid {T} _.

Record LineCounter (T : Type) := {
  config : AppConfig T;
  line_start : T * T;
  line_end : T * T;
  direction_type : string;
  previous_positions : gmap Z (T * T);
  crossed_ids : gset Z;
  crossing_events : list (CrossingEvent T);
  count_up : Z;
  count_down : Z;
  count_left : Z;
  count_right : Z
}.
Arguments config {T} _.
Arguments line_start {T} _.
Arguments line_end {T} _.
Arguments direction_type {T} _.
Arguments previous_positions {T} _.
Arguments crossed_ids {T} _.
Arguments crossing_events {T} _.
Arguments count_up {T} _.
Arguments count_down {T} _.
Arguments count_left {T} _.
Arguments count_right {T} _.

(** A call a client makes on a constructed counter. *)
Inductive call (T : Type) :=
  | Update (tracked_objects : list (TrackedObject T))
  | Reset.
Arguments Update {T} _.
Arguments Reset {T}.

Section LineCounter.
Context {T : Type} `{PyNumber T}.

(** Attribute assignments [self.f = v]. *)
Definition set_previous_positions (self : LineCounter T) v : LineCounter T :=
  {| config := config self; line_start := line_start self;
     line_end := line_end self; direction_type := direction_type self;
     previous_positions := v; crossed_ids := crossed_ids self;
     crossing_events := crossing_events self;
     count_up := count_up self; count_down := count_down self;
     count_left := count_left self; count_right := count_right self |}.

Definition set_crossed_ids (self : LineCounter T) v : LineCounter T :=
  {| config := config self; line_start := line_start self;
     line_end := line_end self; direction_type := direction_type self;
     previous_positions := previous_positions self; crossed_ids := v;
     crossing_events := crossing_events self;
     count_up := count_up self; count_down := count_down self;
     count_left := count_left self; count_right := count_right self |}.

Definition set_crossing_events (self : LineCounter T) v : LineCounter T :=
  {| config := config self; line_start := line_start self;
     line_end := line_end self; direction_type := direction_type self;
     previous_positions := previous_positions self;
     crossed_ids := crossed_ids self; crossing_events := v;
     count_up := count_up self; count_down := count_down self;
     count_left := count_left self; count_right := count_right self |}.

Definition set_counts (self : LineCounter T) (u d l r : Z) : LineCounter T :=
  {| config := config self; line_start := line_start self;
     line_end := line_end self; direction_type := direction_type self;
     previous_positions := previous_positions self;
     crossed_ids := crossed_ids self;
     crossing_events := crossing_events self;
     count_up := u; count_down := d; count_left := l; count_right := r |}.

(* x1, y1, x2, y2 = config.line.coordinates
   raises ValueError unless the list has exactly four elements. *)
Definition __init__ (config : AppConfig T) : result (LineCounter T) :=
  match coordinates (line config) with
  | [x1; y1; x2; y2] =>
      Ok {| config := config;
            line_start := (x1, y1);
            line_end := (x2, y2);
            direction_type := direction (line config);
            previous_positions := ∅;
            crossed_ids := ∅;
            crossing_events := [];
            count_up := 0; count_down := 0;
            count_left := 0; count_right := 0 |}
  | _ => Raise ValueError
  end.

Definition _determine_direction (self : LineCounter T)
    (prev_pos current_pos : T * T) : string :=
  if String.eqb (direction_type self) "vertical" then
    if num_lt (snd current_pos) (snd prev_pos) then "up" else "down"
  else
    if num_lt (fst current_pos) (fst prev_pos) then "left" else "right".

Definition _record_crossing (self : LineCounter T) (track_id : Z)
    (direction class_name : string) (centroid : T * T) (clk : Clock)
    : LineCounter T * Clock :=
  let (timestamp, clk) := now clk in
  let event := {| ev_track_id := track_id;
                  ev_timestamp := timestamp;
                  ev_direction := direction;
                  ev_class_name := class_name;
                  ev_centroid := centroid |} in
  let self := set_crossing_events self (crossing_events self ++ [event]) in
  let self :=
    if String.eqb direction "up" then
      set_counts self (count_up self + 1) (count_down self)
                 (count_left self) (count_right self)
    else if String.eqb direction "down" then
      set_counts self (count_up self) (count_down self + 1)
                 (count_left self) (count_right self)
    else if String.eqb direction "left" then
      set_counts self (count_up self) (count_down self)
                 (count_left self + 1) (count_right self)
    else if String.eqb direction "right" then
      set_counts self (count_up self) (count_down self)
                 (count_left self) (count_right self + 1)
    else self in
  (self, clk).

(** The body of the [for obj in tracked_objects] loop of [update]. *)
Definition update_obj (st : LineCounter T * Clock) (obj : TrackedObject T)
    : LineCounter T * Clock :=
  let (self, clk) := st in
  let track_id := track_id obj in
  let current_pos := centroid obj in
  let (self, clk) :=
    match previous_positions self !! track_id with
    | Some prev_pos =>
        if line_intersection prev_pos current_pos
             (line_start self) (line_end self) then
          if decide (track_id ∈ crossed_ids self) then (self, clk)
          else
            let direction := _determine_direction self prev_pos current_pos in
            let (self, clk) :=
              _record_crossing self track_id direction (class_name obj)
                               current_pos clk in
            (set_crossed_ids self ({[track_id]} ∪ crossed_ids self), clk)
        else (self, clk)
    | None => (self, clk)
    end in
  (set_previous_positions self
     (<[track_id := current_pos]> (previous_positions self)), clk).

Definition update (self : LineCounter T)
    (tracked_objects : list (TrackedObject T)) (clk : Clock)
    : LineCounter T * Clock :=
  fold_left update_obj tracked_objects (self, clk).

Definition get_total_count (self : LineCounter T) : Z :=
  count_up self + count_down self + count_left self + count_right self.

Definition get_statistics (self : LineCounter T) : gmap string Z :=
  <["right" := count_right self]>
  (<["left" := count_left self]>
  (<["down" := count_down self]>
  (<["up" := count_up self]>
  (<["total" := get_total_count self]> ∅)))).

Definition reset (self : LineCounter T) : LineCounter T :=
  {| config := config self; line_start := line_start self;
     line_end := line_end self; direction_type := direction_type self;
     previous_positions := ∅;
     crossed_ids := ∅;
     crossing_events := [];
     count_up := 0; count_down := 0; count_left := 0; count_right := 0 |}.

(** A client session: calls made one after the other on one counter. *)
Definition do_call (st : LineCounter T * Clock) (c : call T)
    : LineCounter T * Clock :=
  match c with
  | Update tracked_objects => update (fst st) tracked_objects (snd st)
  | Reset => (reset (fst st), snd st)
  end.

Definition run (self : LineCounter T) (calls : list (call T)) (clk : Clock)
    : LineCounter T * Clock :=
  fold_left do_call calls (self, clk).

(** A session of [update] calls only. *)
Definition run_updates (self : LineCounter T)
    (ticks : list (list (TrackedObject T))) (clk : Clock)
    : LineCounter T * Clock :=
  fold_left (fun st objs => update (fst st) objs (snd st)) ticks (self, clk).
End LineCounter.


(** ** Vocabulary of the statements *)

Section Vocabulary.
Context {T : Type} `{PyNumber T}.

(** The direction under which the loop body counts [obj] in state [self],
    when it counts it at all: the three nested [if]s of [update]. *)
Definition counted (self : LineCounter T) (obj : TrackedObject T)
    : option string :=
  match previous_positions self !! track_id obj with
  | Some prev_pos =>
      if line_intersection prev_pos (centroid obj)
           (line_start self) (line_end self) then
        if decide (track_id obj ∈ crossed_ids self) then None
        else Some (_determine_direction self prev_pos (centroid obj))
      else None
  | None => None
  end.

(** The entries of an event log that belong to identity [i]. *)
Definition events_of (i : Z) (log : list (CrossingEvent T))
    : list (CrossingEvent T) :=
  List.filter (fun e => Z.eqb (ev_track_id e) i) log.

(** The entries of an event log with direction label [d]. *)
Definition events_going (d : string) (log : list (CrossingEvent T))
    : list (CrossingEvent T) :=
  List.filter (fun e => String.eqb (ev_direction e) d) log.

(** An event without its timestamp. *)
Definition untimed (e : CrossingEvent T) : Z * string * string * (T * T) :=
  (ev_track_id e, ev_direction e, ev_class_name e, ev_centroid e).

(** Two counters agree on everything but the timestamps and the order of
    the event log. *)
Definition same_outcome (s1 s2 : LineCounter T) : Prop :=
  previous_positions s1 = previous_positions s2 /\
  crossed_ids s1 = crossed_ids s2 /\
  count_up s1 = count_up s2 /\
  count_down s1 = count_down s2 /\
  count_left s1 = count_left s2 /\
  count_right s1 = count_right s2 /\
  Permutation (map untimed (crossing_events s1))
              (map untimed (crossing_events s2)).

(** The observable state of a counter apart from the stored
    configuration: what a session can tell two counters apart by. *)
Definition observable (s : LineCounter T) :=
  (line_start s, line_end s, previous_positions s, crossed_ids s,
   crossing_events s, (count_up s, count_down s, count_left s, count_right s)).

(** Every direction counter of [s'] is at least that of [s]. *)
Definition counters_le (s s' : LineCounter T) : Prop :=
  count_up s <= count_up s' /\ count_down s <= count_down s' /\
  count_left s <= count_left s' /\ count_right s <= count_right s'.

(** A counter on a zero-length line that has recorded nothing. *)
Definition idle_on_point (s : LineCounter T) : Prop :=
  line_start s = line_end s /\ crossing_events s = [] /\
  count_up s = 0 /\ count_down s = 0 /\ count_left s = 0 /\ count_right s = 0.

(** What a counter tagged "vertical" has recorded. *)
Definition vertical_only (s : LineCounter T) : Prop :=
  direction_type s = "vertical" /\
  Forall (fun e => ev_direction e = "up" \/ ev_direction e = "down")
         (crossing_events s) /\
  count_left s = 0 /\ count_right s = 0.

(** What a counter with any other tag has recorded. *)
Definition horizontal_only (s : LineCounter T) : Prop :=
  direction_type s <> "vertical" /\
  Forall (fun e => ev_direction e = "left" \/ ev_direction e = "right")
         (crossing_events s) /\
  count_up s = 0 /\ count_down s = 0.

(** Two counters that differ at most in their stored configuration and
    tag, neither tag being "vertical". *)
Definition same_but_tag (s s' : LineCounter T) : Prop :=
  observable s = observable s' /\
  direction_type s <> "vertical" /\ direction_type s' <> "vertical".

(** [s'] extends [s] by the events [new], with the bookkeeping that goes
    with them, seen from identity [i]. *)
Definition extends_by (i : Z) (s s' : LineCounter T)
    (new : list (CrossingEvent T)) : Prop :=
  crossing_events s' = crossing_events s ++ new /\
  (length (events_of i new) <= 1)%nat /\
  (i ∈ crossed_ids s -> events_of i new = []) /\
  (events_of i new <> [] -> i ∈ crossed_ids s') /\
  (i ∈ crossed_ids s -> i ∈ crossed_ids s') /\
  count_up s' = count_up s + Z.of_nat (length (events_going "up" new)) /\
  count_down s' = count_down s + Z.of_nat (length (events_going "down" new)) /\
  count_left s' = count_left s + Z.of_nat (length (events_going "left" new)) /\
  count_right s' = count_right s + Z.of_nat (length (events_going "right" new)) /\
  get_total_count s' = get_total_count s + Z.of_nat (length new).

Definition extends (i : Z) (s s' : LineCounter T) : Prop :=
  exists new, extends_by i s s' new.

(** Same line, same tag, same outcome. *)
Definition equiv (s1 s2 : LineCounter T) : Prop :=
  line_start s1 = line_start s2 /\ line_end s1 = line_end s2 /\
  direction_type s1 = direction_type s2 /\ same_outcome s1 s2.

End Vocabulary.

(** ** Vocabulary of the claims that fail as stated *)

(** A centroid with a non-finite Python float: an infinity or NaN. *)
Definition non_finite (c : float * float) : Prop :=
  PrimFloat.is_finite (fst c) = false \/ PrimFloat.is_finite (snd c) = false.

(** [P], [Q], [R] lie on one straight line (integer coordinates). *)
Definition collinear (P Q R : Z * Z) : Prop :=
  (snd R - snd P) * (fst Q - fst P) = (snd Q - snd P) * (fst R - fst P).

(** [P] lies on the closed segment from [C] to [D]. *)
Definition on_segment (P C D : Z * Z) : Prop :=
  collinear P C D /\
  Z.min (fst C) (fst D) <= fst P <= Z.max (fst C) (fst D) /\
  Z.min (snd C) (snd D) <= snd P <= Z.max (snd C) (snd D).

(** An exactly-collinear touch of the trajectory step [A]-[B] and the line
    [C]-[D]: an endpoint of one of them lies on the other. *)
Definition touch (A B C D : Z * Z) : Prop :=
  on_segment A C D \/ on_segment B C D \/ on_segment C A B \/ on_segment D A B.

(** A malformed line configuration: fewer than four coordinates, or a
    start point equal to the end point. *)
Definition malformed {T : Type} (coords : list T) : Prop :=
  (length coords < 4)%nat \/
  exists x1 y1 x2 y2, coords = [x1; y1; x2; y2] /\ (x1, y1) = (x2, y2).

(** The observation was skipped: nothing about it reached the state. *)
Definition skipped {T : Type} `{PyNumber T} (self : LineCounter T)
    (obj : TrackedObject T) (s' : LineCounter T) : Prop :=
  previous_positions s' !! track_id obj
    = previous_positions self !! track_id obj /\
  crossing_events s' = crossing_events self /\
  get_total_count s' = get_total_count self.

(** ** Sample data *)

(* LineConfig(): coordinates [0, 500, 1280, 500], direction "vertical". *)
Definition default_config : AppConfig Z :=
  {| line := {| coordinates := [0; 500; 1280; 500]; direction := "vertical" |} |}.

Definition diagonal_config : AppConfig float :=
  {| line := {| coordinates := [0%float; 100%float; 100%float; 0%float];
                direction := "horizontal" |} |}.

Definition sample_clock : Clock := fun _ => "2024-01-01 00:00:00.000".

(** A car with a 20 by 20 box around the centroid [(x, y)]. *)
Definition car (i x y : Z) : TrackedObject Z :=
  {| track_id := i; bbox := [x - 10; y - 10; x + 10; y + 10];
     confidence := 1; class_id := 2; class_name := "car";
     centroid := (x, y) |}.

Definition car_f (i : Z) (x y : float) : TrackedObject float :=
  {| track_id := i;
     bbox := [PrimFloat.sub x 10; PrimFloat.sub y 10;
              PrimFloat.add x 10; PrimFloat.add y 10]%float;
     confidence := 0.5%float; class_id := 2; class_name := "car";
     centroid := (x, y) |}.

(** The counter [__init__] builds, or the state it was called on. *)
Definition built {T : Type} (r : result (LineCounter T))
    (otherwise : LineCounter T) : LineCounter T :=
  match r with Ok s => s | Raise _ => otherwise end.

(** The counter [__init__ default_config] builds. *)
Definition default_counter : LineCounter Z :=
  {| config := default_config;
     line_start := (0, 500); line_end := (1280, 500);
     direction_type := "vertical";
     previous_positions := ∅; crossed_ids := ∅; crossing_events := [];
     count_up := 0; count_down := 0; count_left := 0; count_right := 0 |}.

(** ** src/utils.py: the other helpers *)

(* x1, y1, x2, y2 = bbox
   return ((x1 + x2) / 2, (y1 + y2) / 2)
   on floats; the unpacking raises ValueError unless [bbox] has four
   elements. *)
Definition calculate_centroid (bbox : list float) : result (float * float) :=
  match bbox with
  | [x1; y1; x2; y2] =>
      Ok (PrimFloat.div (PrimFloat.add x1 x2) 2,
          PrimFloat.div (PrimFloat.add y1 y2) 2)
  | _ => Raise ValueError
  end.

(* The dict [colors] of [get_color_for_class], BGR triples. *)
Definition colors : gmap Z (Z * Z * Z) :=
  <[7 := (255, 0, 255)]>
  (<[5 := (0, 0, 255)]>
  (<[3 := (0, 255, 255)]>
  (<[2 := (0, 255, 0)]>
  (<[0 := (255, 0, 0)]> ∅)))).

(* return colors.get(class_id, (200, 200, 200)) *)
Definition get_color_for_class (class_id : Z) : Z * Z * Z :=
  default (200, 200, 200) (colors !! class_id).

(** ** src/check_video.py: decoding the FourCC code *)

(* [chr(i)]: the character with code point [i], ValueError outside
   range(0x110000).  A character is modelled by its code point. *)
Definition chr (i : Z) : result Z :=
  if ((0 <=? i) && (i <? 1114112))%Z then Ok i else Raise ValueError.

(* (fourcc >> 8 * i) & 0xFF *)
Definition fourcc_byte (fourcc i : Z) : Z :=
  Z.land (Z.shiftr fourcc (8 * i)) 255.

(* "".join([chr((fourcc >> 8 * i) & 0xFF) for i in range(4)]),
   a string being the list of its characters. *)
Definition fourcc_str (fourcc : Z) : result (list Z) :=
  match chr (fourcc_byte fourcc 0), chr (fourcc_byte fourcc 1),
        chr (fourcc_byte fourcc 2), chr (fourcc_byte fourcc 3) with
  | Ok c0, Ok c1, Ok c2, Ok c3 => Ok [c0; c1; c2; c3]
  | _, _, _, _ => Raise ValueError
  end.

(** ** src/tracker.py *)

(** A track object of the external DeepSORT tracker, as far as
    [ObjectTracker.update] reads it.  [get_det_class] and [get_det_conf]
    are [None] when the object has no such method ([hasattr] is false). *)
Module DeepSort.
Record Track := {
  is_confirmed : bool;
  track_id : Z;
  to_ltrb : float * float * float * float;   (* ltrb[0], ..., ltrb[3] *)
  get_det_class : option string;
  get_det_conf : option float
}.
End DeepSort.

Module ObjectTracker.

(** The attributes of [ObjectTracker] that its own code maintains; the
    DeepSORT instance [self.tracker] is external: [update] receives the
    tracks that [self.tracker.update_tracks(raw_detections, frame)]
    returned. *)
Record t := {
  trajectories : gmap Z (list (float * float));
  all_tracked_ids : gset Z
}.

Definition __init__ : t :=
  {| trajectories := ∅; all_tracked_ids := ∅ |}.

(* class_id_map = {"car": 2, "motorcycle": 3, "bus": 5, "truck": 7, "person": 0} *)
Definition class_id_map : gmap string Z :=
  <["person" := 0]>
  (<["truck" := 7]>
  (<["bus" := 5]>
  (<["motorcycle" := 3]>
  (<["car" := 2]> ∅)))).

(** The body of the [for track in tracks] loop of [update]. *)
Definition update_track (st : t * list (TrackedObject float))
    (track : DeepSort.Track) : t * list (TrackedObject float) :=
  let (self, tracked_objects) := st in
  if negb (DeepSort.is_confirmed track) then (self, tracked_objects)
  else
    let track_id := DeepSort.track_id track in
    let '(l, t, r, b) := DeepSort.to_ltrb track in
    let all_ids := {[track_id]} ∪ all_tracked_ids self in
    let centroid := (PrimFloat.div (PrimFloat.add l r) 2,
                     PrimFloat.div (PrimFloat.add t b) 2) in
    (* self.trajectories is a defaultdict(list) *)
    let trajectory := default [] (trajectories self !! track_id) ++ [centroid] in
    let trajectory :=
      if (30 <? length trajectory)%nat
      then drop (length trajectory - 30) trajectory   (* trajectory[-30:] *)
      else trajectory in
    let class_name :=
      match DeepSort.get_det_class track with
      | Some c => c
      | None => "unknown"
      end in
    let class_id := default 0 (class_id_map !! class_name) in
    ({| trajectories := <[track_id := trajectory]> (trajectories self);
        all_tracked_ids := all_ids |},
     tracked_objects ++
     [{| track_id := track_id;
         bbox := [l; t; r; b];
         confidence := match DeepSort.get_det_conf track with
                       | Some c => c
                       | None => 0%float
                       end;
         class_id := class_id;
         class_name := class_name;
         centroid := centroid |}]).

Definition update (self : t) (tracks : list DeepSort.Track)
    : t * list (TrackedObject float) :=
  fold_left update_track tracks (self, []).

(* return self.trajectories.get(track_id, []) *)
Definition get_trajectory (self : t) (track_id : Z) : list (float * float) :=
  default [] (trajectories self !! track_id).

Definition get_total_vehicle_count (self : t) : Z :=
  Z.of_nat (size (all_tracked_ids self)).

(** A session: [update] on the tracks of one frame after the other. *)
Definition run (self : t) (frames : list (list DeepSort.Track)) : t :=
  fold_left (fun self tracks => fst (update self tracks)) frames self.

End ObjectTracker.


(** ** src/video_processor.py: the frame loop *)

(* [int(v)] for a float: truncation towards zero; ValueError for NaN,
   OverflowError for an infinity. *)
Definition int_of_float (v : float) : result Z :=
  if PrimFloat.is_nan v then Raise ValueError
  else if PrimFloat.is_infinity v then Raise OverflowError
  else Ok match Prim2SF v with
          | S754_finite s m e =>
              let n := if (0 <=? e)%Z then (Z.pos m * 2 ^ e)%Z
                       else (Z.pos m / 2 ^ (- e))%Z in
              if s then (- n)%Z else n
          | _ => 0%Z
          end.

(* [int(v) for v in vs], from left to right *)
Fixpoint ints_of_floats (vs : list float) : result (list Z) :=
  match vs with
  | [] => Ok []
  | v :: vs =>
      match int_of_float v with
      | Raise e => Raise e
      | Ok n =>
          match ints_of_floats vs with
          | Raise e => Raise e
          | Ok ns => Ok (n :: ns)
          end
      end
  end.

Module VideoProcessor.

(** [self.config], [self.tracker] and [self.line_counter]; the detector
    is external. *)
Record t := {
  config : AppConfig float;
  tracker : ObjectTracker.t;
  line_counter : LineCounter float
}.

(* self.config = config
   self.tracker = ObjectTracker(config)
   self.line_counter = LineCounter(config) *)
Definition __init__ (config : AppConfig float) : result t :=
  match __init__ config with
  | Ok counter =>
      Ok {| config := config;
            tracker := ObjectTracker.__init__;
            line_counter := counter |}
  | Raise e => Raise e
  end.

(** The [for obj in tracked_objects] loop of [_visualize], as far as it
    computes on the tracked objects: per object
    [x1, y1, x2, y2 = [int(v) for v in obj.bbox]], which raises on a
    non-finite coordinate and on a box that has not four of them.  The
    result lists the integer boxes handed to the drawing calls. *)
Fixpoint draw_boxes (tracked_objects : list (TrackedObject float))
    : result (list (list Z)) :=
  match tracked_objects with
  | [] => Ok []
  | obj :: tracked_objects =>
      match ints_of_floats (bbox obj) with
      | Raise e => Raise e
      | Ok ([x1; y1; x2; y2] as box) =>
          match draw_boxes tracked_objects with
          | Raise e => Raise e
          | Ok boxes => Ok (box :: boxes)
          end
      | Ok _ => Raise ValueError
      end
  end.

(** [_visualize], as far as it computes on the configuration and on the
    tracked objects: [x1, y1, x2, y2 = self.config.line.coordinates] and
    [int] of each for the counting line, then the loop over the tracked
    objects.  The result lists the integer end points of the line and the
    integer boxes; the image and the cv2 drawing calls are external and
    taken to return. *)
Definition _visualize (self : t)
    (tracked_objects : list (TrackedObject float)) : result (list (list Z)) :=
  match coordinates (line (config self)) with
  | [x1; y1; x2; y2] =>
      match ints_of_floats [x1; y1; x2; y2] with
      | Raise e => Raise e
      | Ok line_px =>
          match draw_boxes tracked_objects with
          | Raise e => Raise e
          | Ok boxes => Ok (line_px :: boxes)
          end
      end
  | _ => Raise ValueError
  end.

(** The processor with the loop variables of [process_video]. *)
Record progress := {
  self : t;
  frame_count : Z;
  frames_written : Z
}.

(** One pass through the [while True] loop of [process_video] for a frame
    that was read: the tracker is updated with the tracks DeepSORT reports
    for the frame, the line counter with the tracked objects, the frame is
    annotated by [_visualize] and written when a writer exists
    ([save_output]).  An exception raised by [_visualize] leaves the pass,
    and the loop, with the state reached: the third component is the
    exception, [None] when the pass completes.  Reading, detecting,
    drawing, writing and displaying are external and taken to return. *)
Definition process_frame (save_output : bool) (st : progress * Clock)
    (tracks : list DeepSort.Track) : progress * Clock * option exn :=
  let (p, clk) := st in
  let frame_count := frame_count p + 1 in
  let (tracker, tracked_objects) :=
    ObjectTracker.update (tracker (self p)) tracks in
  let (counter, clk) := update (line_counter (self p)) tracked_objects clk in
  let self := {| config := config (self p);
                 tracker := tracker; line_counter := counter |} in
  match _visualize self tracked_objects with
  | Raise e =>
      ({| self := self; frame_count := frame_count;
          frames_written := frames_written p |}, clk, Some e)
  | Ok annotated_frame =>
      let frames_written :=
        if save_output then frames_written p + 1 else frames_written p in
      ({| self := self; frame_count := frame_count;
          frames_written := frames_written |}, clk, None)
  end.

(** The loop over the frames the capture delivers, left at the first
    exception. *)
Fixpoint process_frames (save_output : bool) (st : progress * Clock)
    (frames : list (list DeepSort.Track)) : progress * Clock * option exn :=
  match frames with
  | [] => (st, None)
  | tracks :: frames =>
      match process_frame save_output st tracks with
      | (st, None) => process_frames save_output st frames
      | (st, Some e) => (st, Some e)
      end
  end.

(** The frame loop of [process_video], started with both counts at 0. *)
Definition process_video (save_output : bool) (self : t)
    (frames : list (list DeepSort.Track)) (clk : Clock)
    : progress * Clock * option exn :=
  process_frames save_output
    ({| self := self; frame_count := 0; frames_written := 0 |}, clk) frames.

End VideoProcessor.

(** The four coordinates of a box or line are finite floats. *)
Definition finite_box (vs : list float) : Prop :=
  length vs = 4%nat /\ Forall (fun v => PrimFloat.is_finite v = true) vs.

(** The box of every confirmed track of the frame is finite. *)
Definition finite_tracks (tracks : list DeepSort.Track) : Prop :=
  Forall (fun track =>
            DeepSort.is_confirmed track = true ->
            let '(l, t, r, b) := DeepSort.to_ltrb track in
            finite_box [l; t; r; b]) tracks.

(** ** Vocabulary of the further properties *)

(** The last observation of identity [i] in a tick. *)
Definition last_seen {T : Type} (i : Z) (objs : list (TrackedObject T))
    : option (TrackedObject T) :=
  List.find (fun o => Z.eqb (track_id o) i) (rev objs).

(** Twice the signed area of the triangle [A], [B], [C] (integers). *)
Definition orient (A B C : Z * Z) : Z :=
  (fst B - fst A) * (snd C - snd A) - (snd B - snd A) * (fst C - fst A).

(** A point moved by the vector [v]. *)
Definition shifted (v P : Z * Z) : Z * Z := (fst P + fst v, snd P + snd v).

(** The bookkeeping of a counter is consistent: every counted identity
    has a stored position, the log holds one event per counted identity,
    and each direction counter is the number of logged events with that
    direction. *)
Definition bookkept {T : Type} `{PyNumber T} (s : LineCounter T) : Prop :=
  crossed_ids s ⊆ dom (previous_positions s) /\
  NoDup (map ev_track_id (crossing_events s)) /\
  crossed_ids s = list_to_set (map ev_track_id (crossing_events s)) /\
  count_up s = Z.of_nat (length (events_going "up" (crossing_events s))) /\
  count_down s = Z.of_nat (length (events_going "down" (crossing_events s))) /\
  count_left s = Z.of_nat (length (events_going "left" (crossing_events s))) /\
  count_right s = Z.of_nat (length (events_going "right" (crossing_events s))) /\
  Forall (fun e => ev_direction e = "up" \/ ev_direction e = "down" \/
                   ev_direction e = "left" \/ ev_direction e = "right")
         (crossing_events s).

(** From [st] to [st'] the log grew by [new], stamped with the successive
    readings of the clock of [st], which [st'] has consumed. *)
Definition stamped_by {T : Type} (st st' : LineCounter T * Clock)
    (new : list (CrossingEvent T)) : Prop :=
  crossing_events (fst st') = crossing_events (fst st) ++ new /\
  map ev_timestamp new = map (snd st) (seq 0 (length new)) /\
  forall n, snd st' n = snd st (length new + n)%nat.

(** The event [e] reports the observation [o]. *)
Definition reports {T : Type} (e : CrossingEvent T) (o : TrackedObject T)
    : Prop :=
  ev_track_id e = track_id o /\ ev_class_name e = class_name o /\
  ev_centroid e = centroid o.

(** [trajectory[-30:]] applied when the trajectory is longer than 30. *)
Definition last_30 (trajectory : list (float * float)) : list (float * float) :=
  if (30 <? length trajectory)%nat
  then drop (length trajectory - 30) trajectory
  else trajectory.

(** The class ids for which [get_color_for_class] has an entry. *)
Definition known_class (class_id : Z) : Prop :=
  class_id = 0 \/ class_id = 2 \/ class_id = 3 \/ class_id = 5 \/ class_id = 7.

(** The line counter of a processor is consistent and mirrors its tracker:
    it stores a position for exactly the identities the tracker has seen,
    namely the last point of the trajectory of each. *)
Definition mirrors (vp : VideoProcessor.t) : Prop :=
  bookkept (VideoProcessor.line_counter vp) /\
  dom (previous_positions (VideoProcessor.line_counter vp))
    = ObjectTracker.all_tracked_ids (VideoProcessor.tracker vp) /\
  forall i, previous_positions (VideoProcessor.line_counter vp) !! i
            = last (ObjectTracker.get_trajectory (VideoProcessor.tracker vp) i).

(** The counter [__init__ diagonal_config] builds. *)
Definition diagonal_counter : LineCounter float :=
  {| config := diagonal_config;
     line_start := (0, 100)%float; line_end := (100, 0)%float;
     direction_type := "horizontal";
     previous_positions := ∅; crossed_ids := ∅; crossing_events := [];
     count_up := 0; count_down := 0; count_left := 0; count_right := 0 |}.

(** A confirmed DeepSORT track of a car with the box [(l, t, r, b)]. *)
Definition car_track (i : Z) (l t r b : float) : DeepSort.Track :=
  {| DeepSort.is_confirmed := true; DeepSort.track_id := i;
     DeepSort.to_ltrb := (l, t, r, b);
     DeepSort.get_det_class := Some "car";
     DeepSort.get_det_conf := Some 0.5%float |}.

(** Two frames: car 1 moves from (0,0) to (100,100) across the diagonal
    line, next to a track that is not confirmed. *)
Definition sample_frames : list (list DeepSort.Track) :=
  [[car_track 1 (-10) (-10) 10 10;
    {| DeepSort.is_confirmed := false; DeepSort.track_id := 2;
       DeepSort.to_ltrb := (0, 0, 4, 4)%float;
       DeepSort.get_det_class := None; DeepSort.get_det_conf := None |}];
   [car_track 1 90 90 110 110]].

(** Two frames, the second with a box whose right edge is infinite. *)
Definition unbounded_frames : list (list DeepSort.Track) :=
  [[car_track 1 (-10) (-10) 10 10];
   [car_track 1 90 90 infinity 110; car_track 2 0 0 4 4]].

(** The events [update] logs for an observation judged in state [self]. *)
Definition judged {T : Type} `{PyNumber T} (self : LineCounter T)
    (o : TrackedObject T) : list (Z * string * string * (T * T)) :=
  match counted self o with
  | Some d => [(track_id o, d, class_name o, centroid o)]
  | None => []
  end.

(** ** Python numbers of both types in one expression *)

(** The operand of an arithmetic expression: an [int] or a [float]. *)
Inductive number :=
  | Int (z : Z)
  | Float (f : float).

(* The conversion the mixed operators apply to an int operand: the
   nearest binary64 value, ties to even; OverflowError ("int too large to
   convert to float") when that is beyond the largest float. *)
Definition float_of_int (z : Z) : result float :=
  match binary_normalize prec emax z 0 false with
  | S754_infinity _ => Raise OverflowError
  | f => Ok (SF2Prim f)
  end.

(* The order of an int and a float, which Python decides on the exact
   values without converting the int; [None] when the float is NaN. *)
Definition compare_int_float (z : Z) (f : float) : option comparison :=
  match Prim2SF f with
  | S754_nan => None
  | S754_infinity s => Some (if s then Gt else Lt)
  | S754_zero _ => Some (z ?= 0)%Z
  | S754_finite s m e =>
      let v := if s then Z.neg m else Z.pos m in
      Some (if (0 <=? e)%Z then (z ?= v * 2 ^ e)%Z
            else (z * 2 ^ (- e) ?= v)%Z)
  end.

Module Mixed.

(* a - b *)
Definition sub (a b : number) : result number :=
  match a, b with
  | Int x, Int y => Ok (Int (x - y))
  | Float x, Float y => Ok (Float (PrimFloat.sub x y))
  | Int x, Float y =>
      match float_of_int x with
      | Ok x => Ok (Float (PrimFloat.sub x y))
      | Raise e => Raise e
      end
  | Float x, Int y =>
      match float_of_int y with
      | Ok y => Ok (Float (PrimFloat.sub x y))
      | Raise e => Raise e
      end
  end.

(* a * b *)
Definition mul (a b : number) : result number :=
  match a, b with
  | Int x, Int y => Ok (Int (x * y))
  | Float x, Float y => Ok (Float (PrimFloat.mul x y))
  | Int x, Float y =>
      match float_of_int x with
      | Ok x => Ok (Float (PrimFloat.mul x y))
      | Raise e => Raise e
      end
  | Float x, Int y =>
      match float_of_int y with
      | Ok y => Ok (Float (PrimFloat.mul x y))
      | Raise e => Raise e
      end
  end.

(* a > b, which never raises *)
Definition gt (a b : number) : bool :=
  match a, b with
  | Int x, Int y => Z.gtb x y
  | Float x, Float y => PrimFloat.ltb y x
  | Int x, Float y =>
      match compare_int_float x y with Some Gt => true | _ => false end
  | Float x, Int y =>
      match compare_int_float y x with Some Lt => true | _ => false end
  end.

(* (C[1] - A[1]) * (B[0] - A[0]) > (B[1] - A[1]) * (C[0] - A[0]),
   operands evaluated from left to right *)
Definition ccw (A B C : number * number) : result bool :=
  match sub (snd C) (snd A) with Raise e => Raise e | Ok d1 =>
  match sub (fst B) (fst A) with Raise e => Raise e | Ok d2 =>
  match mul d1 d2 with Raise e => Raise e | Ok l =>
  match sub (snd B) (snd A) with Raise e => Raise e | Ok d3 =>
  match sub (fst C) (fst A) with Raise e => Raise e | Ok d4 =>
  match mul d3 d4 with Raise e => Raise e | Ok r =>
  Ok (gt l r)
  end end end end end end.

(* ccw(A, C, D) != ccw(B, C, D) and ccw(A, B, C) != ccw(A, B, D):
   the right operand of [and] is evaluated only when the left one is
   true. *)
Definition line_intersection (p1 p2 line_start line_end : number * number)
    : result bool :=
  let A := p1 in
  let B := p2 in
  let C := line_start in
  let D := line_end in
  match ccw A C D with Raise e => Raise e | Ok a =>
  match ccw B C D with Raise e => Raise e | Ok b =>
  if negb (Bool.eqb a b) then
    match ccw A B C with Raise e => Raise e | Ok c =>
    match ccw A B D with Raise e => Raise e | Ok d =>
    Ok (negb (Bool.eqb c d))
    end end
  else Ok false
  end end.

End Mixed.

(** A point given in ints, and one given in floats. *)
Definition int_point (p : Z * Z) : number * number :=
  (Int (fst p), Int (snd p)).
Definition float_point (p : float * float) : number * number :=
  (Float (fst p), Float (snd p)).

(** The float with the exact value [n / 2^44], for [n] a binary64 value. *)
Definition over_2_44 (n : Z) : float :=
  PrimFloat.div (SF2Prim (binary_normalize prec emax n 0 false))
                17592186044416.
Definition point_over_2_44 (p : Z * Z) : float * float :=
  (over_2_44 (fst p), over_2_44 (snd p)).

(** The real value of the float [f], times [2^k], when that is an integer. *)
Definition scaled_value (k : Z) (f : float) : option Z :=
  match Prim2SF f with
  | S754_zero _ => Some 0
  | S754_finite s m e =>
      let n := if (0 <=? e + k)%Z then Some (Z.pos m * 2 ^ (e + k))
               else if (Z.pos m mod 2 ^ (- (e + k)) =? 0)%Z
                    then Some (Z.pos m / 2 ^ (- (e + k))) else None in
      if s then option_map Z.opp n else n
  | _ => None
  end.

(** ** Facts about the loop body *)

Section Body.
Context {T : Type} `{PyNumber T}.
Implicit Types (self s : LineCounter T) (obj : TrackedObject T) (clk : Clock).

Lemma determine_direction_cases self p c :
  (direction_type self = "vertical" /\
   (_determine_direction self p c = "up" \/
    _determine_direction self p c = "down")) \/
  (direction_type self <> "vertical" /\
   (_determine_direction self p c = "left" \/
    _determine_direction self p c = "right")).
Proof.
  unfold _determine_direction.
  destruct (String.eqb_spec (direction_type self) "vertical") as [E|E].
  - left. split; [exact E|]. destruct (num_lt _ _); auto.
  - right. split; [exact E|]. destruct (num_lt _ _); auto.
Qed.

(** The loop body, by cases on [counted]. *)
Lemma update_obj_eq self clk obj :
  update_obj (self, clk) obj =
  match counted self obj with
  | Some d =>
      let r := _record_crossing self (track_id obj) d (class_name obj)
                 (centroid obj) clk in
      (set_previous_positions
         (set_crossed_ids (fst r) ({[track_id obj]} ∪ crossed_ids (fst r)))
         (<[track_id obj := centroid obj]> (previous_positions self)),
       snd r)
  | None =>
      (set_previous_positions self
         (<[track_id obj := centroid obj]> (previous_positions self)), clk)
  end.
Proof.
  unfold update_obj, counted.
  destruct (previous_positions self !! track_id obj) as [p|]; [|reflexivity].
  destruct (line_intersection _ _ _ _); [|reflexivity].
  destruct (decide _); [reflexivity|].
  unfold _record_crossing, now. simpl.
  repeat (destruct (String.eqb _ _); [reflexivity|]). reflexivity.
Qed.

Lemma counted_is_direction self obj d :
  counted self obj = Some d ->
  d = "up" \/ d = "down" \/ d = "left" \/ d = "right".
Proof.
  unfold counted.
  destruct (previous_positions self !! track_id obj) as [p|]; [|discriminate].
  destruct (line_intersection _ _ _ _); [|discriminate].
  destruct (decide _); [discriminate|].
  intros [= <-].
  destruct (determine_direction_cases self p (centroid obj)) as [[_ [E|E]]|[_ [E|E]]];
    rewrite E; auto.
Qed.

Lemma counted_orientation self obj d :
  counted self obj = Some d ->
  if String.eqb (direction_type self) "vertical"
  then d = "up" \/ d = "down" else d = "left" \/ d = "right".
Proof.
  unfold counted.
  destruct (previous_positions self !! track_id obj) as [p|]; [|discriminate].
  destruct (line_intersection _ _ _ _); [|discriminate].
  destruct (decide _); [discriminate|].
  intros [= <-]. unfold _determine_direction.
  destruct (String.eqb _ "vertical"); destruct (num_lt _ _); auto.
Qed.

Lemma counted_not_crossed self obj d :
  counted self obj = Some d ->
  (track_id obj ∉ crossed_ids self) /\
  is_Some (previous_positions self !! track_id obj).
Proof.
  unfold counted.
  destruct (previous_positions self !! track_id obj) as [p|]; [|discriminate].
  destruct (line_intersection _ _ _ _); [|discriminate].
  destruct (decide _); [discriminate|]. intros _. split; [assumption|eauto].
Qed.

(** What one pass through the loop body does to each attribute. *)
Lemma update_obj_fields self clk obj :
  let s' := fst (update_obj (self, clk) obj) in
  config s' = config self /\
  line_start s' = line_start self /\
  line_end s' = line_end self /\
  direction_type s' = direction_type self /\
  previous_positions s' =
    <[track_id obj := centroid obj]> (previous_positions self) /\
  match counted self obj with
  | Some d =>
      crossed_ids s' = {[track_id obj]} ∪ crossed_ids self /\
      crossing_events s' =
        crossing_events self ++
        [{| ev_track_id := track_id obj; ev_timestamp := clk 0%nat;
            ev_direction := d; ev_class_name := class_name obj;
            ev_centroid := centroid obj |}] /\
      count_up s' = count_up self + (if String.eqb d "up" then 1 else 0) /\
      count_down s' = count_down self + (if String.eqb d "down" then 1 else 0) /\
      count_left s' = count_left self + (if String.eqb d "left" then 1 else 0) /\
      count_right s' = count_right self + (if String.eqb d "right" then 1 else 0)
  | None =>
      crossed_ids s' = crossed_ids self /\
      crossing_events s' = crossing_events self /\
      count_up s' = count_up self /\
      count_down s' = count_down self /\
      count_left s' = count_left self /\
      count_right s' = count_right self
  end.
Proof.
  intros s'. subst s'. rewrite update_obj_eq.
  destruct (counted self obj) as [d|] eqn:E; simpl.
  - destruct (counted_is_direction _ _ _ E) as [-> | [-> | [-> | ->]]];
      simpl; repeat split; lia.
  - repeat split.
Qed.
End Body.

(** ** Lifting a step property to [update] and to sessions *)

Section Lifting.
Context {T : Type} `{PyNumber T}.
Variable R : LineCounter T -> LineCounter T -> Prop.
Hypothesis R_refl : forall s, R s s.
Hypothesis R_trans : forall s1 s2 s3, R s1 s2 -> R s2 s3 -> R s1 s3.
Hypothesis R_body : forall s clk obj, R s (fst (update_obj (s, clk) obj)).

Lemma update_lift objs : forall s clk, R s (fst (update s objs clk)).
Proof.
  unfold update. induction objs as [|obj objs IH]; intros s clk; cbn [fold_left].
  - apply R_refl.
  - destruct (update_obj (s, clk) obj) as [s1 clk1] eqn:E.
    apply R_trans with s1.
    + pose proof (R_body s clk obj) as Hb. rewrite E in Hb. exact Hb.
    + apply IH.
Qed.

Lemma run_updates_lift ticks : forall s clk, R s (fst (run_updates s ticks clk)).
Proof.
  unfold run_updates. induction ticks as [|objs ticks IH]; intros s clk;
    cbn [fold_left fst snd].
  - apply R_refl.
  - destruct (update s objs clk) as [s1 clk1] eqn:E.
    apply R_trans with s1.
    + pose proof (update_lift objs s clk) as Hb. rewrite E in Hb. exact Hb.
    + apply IH.
Qed.

Hypothesis R_reset : forall s, R s (reset s).

Lemma run_lift calls : forall s clk, R s (fst (run s calls clk)).
Proof.
  unfold run. induction calls as [|c calls IH]; intros s clk;
    cbn [fold_left].
  - apply R_refl.
  - destruct c as [objs|]; cbn [do_call fst snd].
    + destruct (update s objs clk) as [s1 clk1] eqn:E.
      apply R_trans with s1.
      * pose proof (update_lift objs s clk) as Hb. rewrite E in Hb. exact Hb.
      * apply IH.
    + apply R_trans with (reset s); [apply R_reset|apply IH].
Qed.
End Lifting.

(** ** Counters *)

Section Counters.
Context {T : Type} `{PyNumber T}.

Lemma counters_le_body (s : LineCounter T) clk obj :
  counters_le s (fst (update_obj (s, clk) obj)).
Proof.
  unfold counters_le.
  destruct (update_obj_fields s clk obj) as (_ & _ & _ & _ & _ & Hc).
  destruct (counted s obj) as [d|].
  - destruct Hc as (_ & _ & -> & -> & -> & ->).
    repeat match goal with |- context [if ?b then _ else _] => destruct b end; lia.
  - destruct Hc as (_ & _ & -> & -> & -> & ->). lia.
Qed.

Lemma counters_le_update (s : LineCounter T) objs clk :
  counters_le s (fst (update s objs clk)).
Proof.
  apply (update_lift counters_le).
  - unfold counters_le; intros; lia.
  - unfold counters_le; intros; lia.
  - apply counters_le_body.
Qed.

Lemma counters_le_run_updates (s : LineCounter T) ticks clk :
  counters_le s (fst (run_updates s ticks clk)).
Proof.
  apply (run_updates_lift counters_le).
  - unfold counters_le; intros; lia.
  - unfold counters_le; intros; lia.
  - apply counters_le_body.
Qed.

(** C8. Counter monotonicity and totalisation.  For any session of
    [update] calls without [reset] and any further tick, each of the four
    direction counters after the tick is at least its value before it, so
    is [get_total_count]; and in every state [get_total_count] is
    [count_up + count_down + count_left + count_right], which is the value
    [get_statistics] reports under ["total"]. *)
Theorem total_count_monotone (self : LineCounter T)
    (ticks : list (list (TrackedObject T)))
    (tracked_objects : list (TrackedObject T)) (clk : Clock) :
  let st_k := run_updates self ticks clk in
  let st_k1 := update (fst st_k) tracked_objects (snd st_k) in
  (count_up (fst st_k) <= count_up (fst st_k1) /\
   count_down (fst st_k) <= count_down (fst st_k1) /\
   count_left (fst st_k) <= count_left (fst st_k1) /\
   count_right (fst st_k) <= count_right (fst st_k1) /\
   get_total_count (fst st_k) <= get_total_count (fst st_k1)) /\
  get_total_count self <= get_total_count (fst st_k) /\
  (forall s : LineCounter T,
     get_total_count s =
       count_up s + count_down s + count_left s + count_right s /\
     get_statistics s !! "total" = Some (get_total_count s)).
Proof.
  intros st_k st_k1. repeat split.
  1-5: pose proof (counters_le_update (fst st_k) tracked_objects (snd st_k)) as Hle;
       unfold counters_le, get_total_count in *; subst st_k1; lia.
  pose proof (counters_le_run_updates self ticks clk) as Hle.
  unfold counters_le, get_total_count in *. subst st_k. lia.
Qed.
End Counters.

(** ** First sighting and reset *)

Section FirstSighting.
Context {T : Type} `{PyNumber T}.

(** C6. First-sighting no-op.  When [previous_positions] has no entry for
    the identity of an observation, processing it only installs its
    centroid as the stored previous position: the event log, the four
    counters and [crossed_ids] are unchanged and the clock is not read,
    whatever the centroid and whatever the configured line (the result
    does not depend on [line_intersection]).  The same holds for an
    [update] call with that single observation. *)
Theorem first_sighting_noop (self : LineCounter T) (obj : TrackedObject T)
    (clk : Clock) :
  previous_positions self !! track_id obj = None ->
  update_obj (self, clk) obj =
    (set_previous_positions self
       (<[track_id obj := centroid obj]> (previous_positions self)), clk) /\
  update self [obj] clk = update_obj (self, clk) obj /\
  let s' := fst (update self [obj] clk) in
  previous_positions s' !! track_id obj = Some (centroid obj) /\
  crossing_events s' = crossing_events self /\
  crossed_ids s' = crossed_ids self /\
  count_up s' = count_up self /\ count_down s' = count_down self /\
  count_left s' = count_left self /\ count_right s' = count_right self /\
  get_total_count s' = get_total_count self.
Proof.
  intros Hnone.
  assert (E : update_obj (self, clk) obj =
              (set_previous_positions self
                (<[track_id obj := centroid obj]> (previous_positions self)), clk)).
  { unfold update_obj. rewrite Hnone. reflexivity. }
  split; [exact E|]. split; [reflexivity|].
  unfold update. cbn [fold_left]. rewrite E. cbn.
  rewrite lookup_insert_eq. repeat split.
Qed.

(** No call changes the configuration, the line or the tag. *)
Lemma run_keeps_configuration (s : LineCounter T) calls clk :
  let s' := fst (run s calls clk) in
  config s' = config s /\ line_start s' = line_start s /\
  line_end s' = line_end s /\ direction_type s' = direction_type s.
Proof.
  apply (run_lift (fun s s' =>
    config s' = config s /\ line_start s' = line_start s /\
    line_end s' = line_end s /\ direction_type s' = direction_type s)).
  - intros s0. repeat split.
  - intros s1 s2 s3 (A1 & A2 & A3 & A4) (B1 & B2 & B3 & B4).
    repeat split; congruence.
  - intros s0 clk0 obj.
    destruct (update_obj_fields s0 clk0 obj) as (Hc & Hls & Hle & Ht & _).
    repeat split; assumption.
  - intros s0. repeat split.
Qed.

(** C7. Reset semantics.  Right after [reset], [get_statistics] maps
    total, up, down, left and right to zero, [crossing_events] is empty,
    and [previous_positions] and [crossed_ids] are empty; hence any
    identity observed next, also one seen or counted before the reset, is
    a first sighting: it records nothing and only stores its centroid.
    On a counter built by [__init__], [reset] after any history of calls
    gives back the counter as it was built. *)
Theorem reset_semantics (self : LineCounter T) :
  get_statistics (reset self) =
    <["right" := 0]> (<["left" := 0]> (<["down" := 0]>
      (<["up" := 0]> (<["total" := 0]> ∅)))) /\
  get_total_count (reset self) = 0 /\
  crossing_events (reset self) = [] /\
  previous_positions (reset self) = ∅ /\
  crossed_ids (reset self) = ∅ /\
  (forall (obj : TrackedObject T) (clk : Clock),
     let s' := fst (update (reset self) [obj] clk) in
     previous_positions s' = {[track_id obj := centroid obj]} /\
     crossing_events s' = [] /\
     crossed_ids s' = ∅ /\
     get_total_count s' = 0 /\
     snd (update (reset self) [obj] clk) = clk) /\
  (forall (cfg : AppConfig T) (s0 : LineCounter T)
          (history : list (call T)) (clk : Clock),
     __init__ cfg = Ok s0 ->
     self = fst (run s0 history clk) ->
     reset self = s0).
Proof.
  do 5 (split; [reflexivity|]). split; [repeat split|].
  intros cfg s0 history clk Hinit ->.
  destruct (run_keeps_configuration s0 history clk) as (Hc & Hls & Hle & Ht).
  unfold reset. rewrite Hc, Hls, Hle, Ht.
  unfold __init__ in Hinit.
  destruct (coordinates (line cfg)) as [|x1 [|y1 [|x2 [|y2 [|z l]]]]];
    try discriminate Hinit.
  injection Hinit as <-. reflexivity.
Qed.
End FirstSighting.

(** ** The crossing classifier *)

Lemma float_lt_irrefl (x : float) : PrimFloat.ltb x x = false.
Proof.
  rewrite FloatAxioms.ltb_spec. unfold SFltb.
  destruct (Prim2SF x) as [s|s| |s m e]; simpl; try reflexivity.
  - destruct s; reflexivity.
  - destruct s; rewrite Z.compare_refl, ?Pos.compare_cont_refl; simpl;
      rewrite ?Pos.compare_refl; reflexivity.
Qed.

(** Python's [==] on floats ([-0.0 == 0.0], never [nan == nan]) excludes [<]. *)
Lemma float_eqb_not_lt (x y : float) :
  PrimFloat.eqb x y = true -> PrimFloat.ltb x y = false.
Proof.
  rewrite FloatAxioms.eqb_spec, FloatAxioms.ltb_spec. unfold SFeqb, SFltb.
  destruct (SFcompare (Prim2SF x) (Prim2SF y)) as [[ | | ]|];
    congruence.
Qed.

Section Classifier.
Context {T : Type} `{PyNumber T}.

Lemma determine_direction_vertical (self : LineCounter T) prev_pos current_pos :
  direction_type self = "vertical" ->
  _determine_direction self prev_pos current_pos =
    if num_lt (snd current_pos) (snd prev_pos) then "up" else "down".
Proof. intros E. unfold _determine_direction. rewrite E. reflexivity. Qed.

Lemma determine_direction_other (self : LineCounter T) prev_pos current_pos :
  direction_type self <> "vertical" ->
  _determine_direction self prev_pos current_pos =
    if num_lt (fst current_pos) (fst prev_pos) then "left" else "right".
Proof.
  intros E. unfold _determine_direction.
  destruct (String.eqb_spec (direction_type self) "vertical"); [contradiction|].
  reflexivity.
Qed.
End Classifier.

(** C3. The crossing classifier.  [_determine_direction] depends on the
    counter only through its orientation tag, so it is a function of the
    previous centroid, the current centroid and the tag.  For the tag
    vertical it returns up exactly when current.y < previous.y and down
    otherwise, equal y giving down; for the tag horizontal it returns left
    exactly when current.x < previous.x and right otherwise, equal x giving
    right.  The ties are stated for Python ints and for Python floats (both
    for identical values and for values equal under [==]).  Concretely
    classify((5,10),(5,4),vertical) = up, classify((5,10),(5,10),vertical) =
    down and classify((10,5),(4,5),horizontal) = left. *)
Theorem determine_direction_spec :
  (forall T (N : PyNumber T) (s1 s2 : LineCounter T) p c,
     direction_type s1 = direction_type s2 ->
     _determine_direction s1 p c = _determine_direction s2 p c) /\
  (forall T (N : PyNumber T) (self : LineCounter T) p c,
     direction_type self = "vertical" ->
     _determine_direction self p c =
       (if num_lt (snd c) (snd p) then "up" else "down")) /\
  (forall T (N : PyNumber T) (self : LineCounter T) p c,
     direction_type self = "horizontal" ->
     _determine_direction self p c =
       (if num_lt (fst c) (fst p) then "left" else "right")) /\
  (forall (self : LineCounter Z) (p c : Z * Z),
     direction_type self = "vertical" ->
     (_determine_direction self p c = "up" <-> snd c < snd p) /\
     (_determine_direction self p c = "down" <-> snd p <= snd c)) /\
  (forall (self : LineCounter Z) (p c : Z * Z),
     direction_type self = "horizontal" ->
     (_determine_direction self p c = "left" <-> fst c < fst p) /\
     (_determine_direction self p c = "right" <-> fst p <= fst c)) /\
  (forall (self : LineCounter float) (p c : float * float),
     direction_type self = "vertical" ->
     snd c = snd p \/ PrimFloat.eqb (snd c) (snd p) = true ->
     _determine_direction self p c = "down") /\
  (forall (self : LineCounter float) (p c : float * float),
     direction_type self = "horizontal" ->
     fst c = fst p \/ PrimFloat.eqb (fst c) (fst p) = true ->
     _determine_direction self p c = "right") /\
  (forall self : LineCounter Z,
     direction_type self = "vertical" ->
     _determine_direction self (5, 10) (5, 4) = "up" /\
     _determine_direction self (5, 10) (5, 10) = "down") /\
  (forall self : LineCounter Z,
     direction_type self = "horizontal" ->
     _determine_direction self (10, 5) (4, 5) = "left").
Proof.
  repeat apply conj.
  - intros T N s1 s2 p c E. unfold _determine_direction. rewrite E. reflexivity.
  - intros T N self p c E. apply determine_direction_vertical, E.
  - intros T N self p c E. apply determine_direction_other.
    rewrite E. discriminate.
  - intros self p c E. rewrite (determine_direction_vertical _ _ _ E).
    cbn [num_lt PyInt]. destruct (Z.ltb_spec (snd c) (snd p)); split; split;
      (lia || discriminate || reflexivity).
  - intros self p c E. rewrite determine_direction_other by (rewrite E; discriminate).
    cbn [num_lt PyInt]. destruct (Z.ltb_spec (fst c) (fst p)); split; split;
      (lia || discriminate || reflexivity).
  - intros self p c E Hy. rewrite (determine_direction_vertical _ _ _ E).
    cbn [num_lt PyFloat].
    destruct Hy as [->|Hy]; [rewrite float_lt_irrefl|rewrite (float_eqb_not_lt _ _ Hy)];
      reflexivity.
  - intros self p c E Hx. rewrite determine_direction_other by (rewrite E; discriminate).
    cbn [num_lt PyFloat].
    destruct Hx as [->|Hx]; [rewrite float_lt_irrefl|rewrite (float_eqb_not_lt _ _ Hx)];
      reflexivity.
  - intros self E. rewrite !(determine_direction_vertical _ _ _ E). split; reflexivity.
  - intros self E. rewrite determine_direction_other by (rewrite E; discriminate).
    reflexivity.
Qed.

(** ** The intersection primitive *)

Section Intersection.
Context {T : Type} `{PyNumber T}.

Lemma line_intersection_eq (A B C D : T * T) :
  line_intersection A B C D =
    xorb (ccw A C D) (ccw B C D) && xorb (ccw A B C) (ccw A B D).
Proof.
  unfold line_intersection.
  destruct (ccw A C D), (ccw B C D), (ccw A B C), (ccw A B D); reflexivity.
Qed.

Lemma line_intersection_zero_step (p C D : T * T) :
  line_intersection p p C D = false.
Proof. rewrite line_intersection_eq, xorb_nilpotent. reflexivity. Qed.

Lemma line_intersection_zero_line (A B C : T * T) :
  line_intersection A B C C = false.
Proof. rewrite line_intersection_eq, (xorb_nilpotent (ccw A B C)), andb_false_r. reflexivity. Qed.
End Intersection.

Lemma ccw_int_strict (A B C : Z * Z) :
  ccw A B C = true <->
  (snd C - snd A) * (fst B - fst A) > (snd B - snd A) * (fst C - fst A).
Proof.
  unfold ccw. cbn [num_gt num_mul num_sub PyInt].
  rewrite Z.gtb_ltb, Z.ltb_lt. lia.
Qed.

Lemma ccw_int_collinear (A B C : Z * Z) : collinear A B C -> ccw A B C = false.
Proof.
  unfold collinear. intros E. apply not_true_is_false. rewrite ccw_int_strict. lia.
Qed.

(** ** The intersection primitive on Python numbers *)

Lemma float_of_int_raises (z : Z) e :
  float_of_int z = Raise e -> e = OverflowError.
Proof.
  unfold float_of_int.
  destruct (binary_normalize prec emax z 0 false); intros E;
    try discriminate E. injection E as <-. reflexivity.
Qed.

Lemma mixed_ccw_ints (A B C : Z * Z) :
  Mixed.ccw (int_point A) (int_point B) (int_point C) = Ok (ccw A B C).
Proof. reflexivity. Qed.

Lemma mixed_ccw_floats (A B C : float * float) :
  Mixed.ccw (float_point A) (float_point B) (float_point C) = Ok (ccw A B C).
Proof. reflexivity. Qed.

Lemma mixed_line_intersection_ints (A B C D : Z * Z) :
  Mixed.line_intersection (int_point A) (int_point B) (int_point C) (int_point D)
  = Ok (line_intersection A B C D).
Proof.
  unfold Mixed.line_intersection. cbn zeta. rewrite !mixed_ccw_ints.
  unfold line_intersection. cbn zeta.
  destruct (negb (Bool.eqb (ccw A C D) (ccw B C D))); reflexivity.
Qed.

Lemma mixed_line_intersection_floats (A B C D : float * float) :
  Mixed.line_intersection (float_point A) (float_point B)
                          (float_point C) (float_point D)
  = Ok (line_intersection A B C D).
Proof.
  unfold Mixed.line_intersection. cbn zeta. rewrite !mixed_ccw_floats.
  unfold line_intersection. cbn zeta.
  destruct (negb (Bool.eqb (ccw A C D) (ccw B C D))); reflexivity.
Qed.

Lemma mixed_ccw_float_int_int (A : float * float) (C D : Z * Z) a b c d :
  float_of_int (fst C) = Ok a -> float_of_int (snd C) = Ok b ->
  float_of_int (fst D) = Ok c -> float_of_int (snd D) = Ok d ->
  Mixed.ccw (float_point A) (int_point C) (int_point D)
  = Ok (ccw A (a, b) (c, d)).
Proof.
  intros Ha Hb Hc Hd. unfold Mixed.ccw, float_point, int_point.
  cbn [fst snd Mixed.sub]. rewrite Ha, Hb, Hc, Hd. reflexivity.
Qed.

Lemma mixed_ccw_float_float_int (A B : float * float) (C : Z * Z) a b :
  float_of_int (fst C) = Ok a -> float_of_int (snd C) = Ok b ->
  Mixed.ccw (float_point A) (float_point B) (int_point C)
  = Ok (ccw A B (a, b)).
Proof.
  intros Ha Hb. unfold Mixed.ccw, float_point, int_point.
  cbn [fst snd Mixed.sub]. rewrite Ha, Hb. reflexivity.
Qed.

Lemma mixed_ccw_overflow (A : float * float) (C D : Z * Z) :
  float_of_int (fst C) = Raise OverflowError \/
  float_of_int (snd C) = Raise OverflowError \/
  float_of_int (fst D) = Raise OverflowError \/
  float_of_int (snd D) = Raise OverflowError ->
  Mixed.ccw (float_point A) (int_point C) (int_point D) = Raise OverflowError.
Proof.
  intros H. unfold Mixed.ccw, float_point, int_point. cbn [fst snd Mixed.sub].
  destruct (float_of_int (snd D)) as [d|e] eqn:Ed;
    [|rewrite (float_of_int_raises _ _ Ed); reflexivity].
  destruct (float_of_int (fst C)) as [a|e] eqn:Ea;
    [|rewrite (float_of_int_raises _ _ Ea); reflexivity].
  cbn [Mixed.mul].
  destruct (float_of_int (snd C)) as [b|e] eqn:Eb;
    [|rewrite (float_of_int_raises _ _ Eb); reflexivity].
  destruct (float_of_int (fst D)) as [c|e] eqn:Ec;
    [|rewrite (float_of_int_raises _ _ Ec); reflexivity].
  destruct H as [H|[H|[H|H]]]; discriminate H.
Qed.

Lemma mixed_line_intersection_float_step (p1 p2 : float * float)
    (ls le : Z * Z) :
  (forall a b c d,
     float_of_int (fst ls) = Ok a -> float_of_int (snd ls) = Ok b ->
     float_of_int (fst le) = Ok c -> float_of_int (snd le) = Ok d ->
     Mixed.line_intersection (float_point p1) (float_point p2)
                             (int_point ls) (int_point le)
     = Ok (line_intersection p1 p2 (a, b) (c, d))) /\
  (float_of_int (fst ls) = Raise OverflowError \/
   float_of_int (snd ls) = Raise OverflowError \/
   float_of_int (fst le) = Raise OverflowError \/
   float_of_int (snd le) = Raise OverflowError ->
   Mixed.line_intersection (float_point p1) (float_point p2)
                           (int_point ls) (int_point le)
   = Raise OverflowError).
Proof.
  split.
  - intros a b c d Ha Hb Hc Hd. unfold Mixed.line_intersection. cbn zeta.
    rewrite !(mixed_ccw_float_int_int _ ls le a b c d Ha Hb Hc Hd).
    rewrite (mixed_ccw_float_float_int p1 p2 ls a b Ha Hb).
    rewrite (mixed_ccw_float_float_int p1 p2 le c d Hc Hd).
    unfold line_intersection. cbn zeta.
    destruct (negb (Bool.eqb (ccw p1 (a, b) (c, d)) (ccw p2 (a, b) (c, d))));
      reflexivity.
  - intros H. unfold Mixed.line_intersection. cbn zeta.
    rewrite (mixed_ccw_overflow p1 ls le H). reflexivity.
Qed.

(** C2, as the claim states it, fails: the step (5,5)->(5,0) ends exactly on
    the line (0,0)-(10,0), an exactly-collinear touch, and
    [line_intersection] returns true (for ints and for floats alike). *)
Lemma collinear_touch_not_always_false :
  ~ (forall A B C D : Z * Z, touch A B C D -> line_intersection A B C D = false) /\
  touch (5, 5) (5, 0) (0, 0) (10, 0) /\
  line_intersection (5, 5) (5, 0) (0, 0) (10, 0) = true /\
  line_intersection (5%float, 5%float) (5%float, 0%float)
                    (0%float, 0%float) (10%float, 0%float) = true.
Proof.
  assert (Ht : touch (5, 5) (5, 0) (0, 0) (10, 0)).
  { right; left. unfold on_segment, collinear. simpl. lia. }
  split; [|split; [exact Ht|split; reflexivity]].
  intros Hall. specialize (Hall _ _ _ _ Ht). discriminate Hall.
Qed.

(** C2, amended.  [line_intersection] is the orientation test
    [ccw(A,C,D) != ccw(B,C,D) and ccw(A,B,C) != ccw(A,B,D)] with [ccw]
    compared by a strict [>] (not [>=]).
    With integer coordinates, where the arithmetic is exact, [ccw] holds
    exactly when the cross product inequality is strict and three
    collinear points give false; a step with an endpoint on the
    supporting line of the counting line is then reported as an
    intersection only if its other endpoint is strictly on the
    counter-clockwise side (so an exactly-collinear touch from the other
    side returns false), likewise for a line endpoint on the supporting
    line of the step, and the result is false when all four points are
    collinear.
    With float coordinates the differences and products are rounded and
    this need not hold: for the step from (1258.5, 310.5) to the point
    (286 + 59/2^44, 575 - 10/2^44), which lies exactly on the line
    (286,575)-(935,465), the float computation returns true while the
    exact computation on the same points returns false.
    For the line (0,100)-(100,0) the step (0,0)->(100,100) returns true and
    the step (0,0)->(40,40) returns false, in ints and in floats.  A
    zero-length step and a zero-length line return false, in ints and in
    floats.
    No error is raised when the four points are all given in ints or all
    in floats, non-finite floats included.  When the step is given in
    floats and the line in ints, the line coordinates are converted to
    float: the result is that of the float computation when the four of
    them are within the float range, and OverflowError is raised when one
    of them is not, as for the line coordinate 10^400. *)
Theorem line_intersection_spec :
  (forall T (N : PyNumber T) (A B C D : T * T),
     line_intersection A B C D =
       xorb (ccw A C D) (ccw B C D) && xorb (ccw A B C) (ccw A B D)) /\
  (forall T (N : PyNumber T) (A B C : T * T),
     ccw A B C =
       num_gt (num_mul (num_sub (snd C) (snd A)) (num_sub (fst B) (fst A)))
              (num_mul (num_sub (snd B) (snd A)) (num_sub (fst C) (fst A)))) /\
  (forall A B C : Z * Z,
     (ccw A B C = true <->
      (snd C - snd A) * (fst B - fst A) > (snd B - snd A) * (fst C - fst A)) /\
     (collinear A B C -> ccw A B C = false)) /\
  (forall A B C D : Z * Z,
     (collinear B C D -> line_intersection A B C D = true -> ccw A C D = true) /\
     (collinear A C D -> line_intersection A B C D = true -> ccw B C D = true) /\
     (collinear A B C -> line_intersection A B C D = true -> ccw A B D = true) /\
     (collinear A B D -> line_intersection A B C D = true -> ccw A B C = true) /\
     (collinear A C D -> collinear B C D -> line_intersection A B C D = false)) /\
  (let A := (2517 * 2 ^ 43, 621 * 2 ^ 43) in
   let B := (286 * 2 ^ 44 + 59, 575 * 2 ^ 44 - 10) in
   let C := (286 * 2 ^ 44, 575 * 2 ^ 44) in
   let D := (935 * 2 ^ 44, 465 * 2 ^ 44) in
   on_segment B C D /\
   line_intersection A B C D = false /\
   line_intersection (point_over_2_44 A) (point_over_2_44 B)
                     (point_over_2_44 C) (point_over_2_44 D) = true /\
   point_over_2_44 A = (1258.5, 310.5)%float /\
   point_over_2_44 B = (0x1.1e0000000003bp+8, 0x1.1f7fffffffffbp+9)%float /\
   point_over_2_44 C = (286, 575)%float /\
   point_over_2_44 D = (935, 465)%float /\
   Forall2 (fun n f => scaled_value 44 f = Some n)
     [fst A; snd A; fst B; snd B; fst C; snd C; fst D; snd D]
     [fst (point_over_2_44 A); snd (point_over_2_44 A);
      fst (point_over_2_44 B); snd (point_over_2_44 B);
      fst (point_over_2_44 C); snd (point_over_2_44 C);
      fst (point_over_2_44 D); snd (point_over_2_44 D)]) /\
  (line_intersection (0, 0) (100, 100) (0, 100) (100, 0) = true /\
   line_intersection (0, 0) (40, 40) (0, 100) (100, 0) = false /\
   line_intersection (0%float, 0%float) (100%float, 100%float)
                     (0%float, 100%float) (100%float, 0%float) = true /\
   line_intersection (0%float, 0%float) (40%float, 40%float)
                     (0%float, 100%float) (100%float, 0%float) = false) /\
  (forall T (N : PyNumber T) (p1 p2 line_start line_end : T * T),
     line_intersection p1 p1 line_start line_end = false /\
     line_intersection p1 p2 line_start line_start = false) /\
  (forall A B C D : Z * Z,
     Mixed.line_intersection (int_point A) (int_point B)
                             (int_point C) (int_point D)
     = Ok (line_intersection A B C D)) /\
  (forall A B C D : float * float,
     Mixed.line_intersection (float_point A) (float_point B)
                             (float_point C) (float_point D)
     = Ok (line_intersection A B C D)) /\
  (forall (p1 p2 : float * float) (line_start line_end : Z * Z),
     (forall a b c d,
        float_of_int (fst line_start) = Ok a ->
        float_of_int (snd line_start) = Ok b ->
        float_of_int (fst line_end) = Ok c ->
        float_of_int (snd line_end) = Ok d ->
        Mixed.line_intersection (float_point p1) (float_point p2)
                                (int_point line_start) (int_point line_end)
        = Ok (line_intersection p1 p2 (a, b) (c, d))) /\
     (float_of_int (fst line_start) = Raise OverflowError \/
      float_of_int (snd line_start) = Raise OverflowError \/
      float_of_int (fst line_end) = Raise OverflowError \/
      float_of_int (snd line_end) = Raise OverflowError ->
      Mixed.line_intersection (float_point p1) (float_point p2)
                              (int_point line_start) (int_point line_end)
      = Raise OverflowError)) /\
  (float_of_int (10 ^ 400) = Raise OverflowError /\
   float_of_int 1280 = Ok 1280%float /\
   Mixed.line_intersection (float_point (0, 0)%float)
                           (float_point (1, 1)%float)
                           (int_point (10 ^ 400, 0)) (int_point (0, 1))
   = Raise OverflowError).
Proof.
  split; [intros; apply line_intersection_eq|].
  split; [reflexivity|].
  split; [intros A B C; split; [apply ccw_int_strict|apply ccw_int_collinear]|].
  split.
  { intros A B C D. repeat apply conj.
    - intros Hc. rewrite line_intersection_eq, (ccw_int_collinear _ _ _ Hc).
      destruct (ccw A C D); [reflexivity|discriminate].
    - intros Hc. rewrite line_intersection_eq, (ccw_int_collinear _ _ _ Hc).
      destruct (ccw B C D); [reflexivity|discriminate].
    - intros Hc. rewrite line_intersection_eq, (ccw_int_collinear _ _ _ Hc).
      destruct (ccw A B D); [reflexivity|]. rewrite andb_false_r. discriminate.
    - intros Hc. rewrite line_intersection_eq, (ccw_int_collinear _ _ _ Hc).
      destruct (ccw A B C); [reflexivity|]. rewrite andb_false_r. discriminate.
    - intros Ha Hb.
      rewrite line_intersection_eq, (ccw_int_collinear _ _ _ Ha),
        (ccw_int_collinear _ _ _ Hb). reflexivity. }
  split.
  { cbn zeta. split.
    - unfold on_segment, collinear. cbn [fst snd]. lia.
    - split; [vm_compute; reflexivity|]. split; [vm_compute; reflexivity|].
      do 4 (split; [vm_compute; reflexivity|]).
      repeat constructor; vm_compute; reflexivity. }
  split; [repeat split|].
  split.
  { intros T N p1 p2 ls le. split;
      [apply line_intersection_zero_step|apply line_intersection_zero_line]. }
  split; [apply mixed_line_intersection_ints|].
  split; [apply mixed_line_intersection_floats|].
  split; [apply mixed_line_intersection_float_step|].
  repeat split; vm_compute; reflexivity.
Qed.

(** ** Construction *)

Section Construction.
Context {T : Type} `{PyNumber T}.

Lemma counted_zero_line (s : LineCounter T) obj :
  line_start s = line_end s -> counted s obj = None.
Proof.
  intros E. unfold counted. rewrite E.
  destruct (previous_positions s !! track_id obj); [|reflexivity].
  rewrite line_intersection_zero_line. reflexivity.
Qed.

Lemma idle_on_point_run (s : LineCounter T) calls clk :
  idle_on_point s -> idle_on_point (fst (run s calls clk)).
Proof.
  apply (run_lift (fun s s' => idle_on_point s -> idle_on_point s')).
  - auto.
  - auto.
  - intros s0 clk0 obj (El & Ee & Eu & Ed & Ell & Er).
    destruct (update_obj_fields s0 clk0 obj) as (_ & Hs & He & _ & _ & Hc).
    rewrite (counted_zero_line s0 obj El) in Hc.
    unfold idle_on_point.
    destruct Hc as (_ & -> & -> & -> & -> & ->).
    rewrite Hs, He. repeat split; assumption.
  - intros s0 (El & _). unfold idle_on_point. simpl. repeat split. exact El.
Qed.

Lemma init_wrong_length (cfg : AppConfig T) :
  length (coordinates (line cfg)) <> 4%nat -> __init__ cfg = Raise ValueError.
Proof.
  unfold __init__.
  destruct (coordinates (line cfg)) as [|x1 [|y1 [|x2 [|y2 [|z l]]]]];
    simpl; intros E; try reflexivity. contradiction.
Qed.
End Construction.

(** C4, as the claim states it, fails: the configuration [5, 5, 5, 5] is a
    zero-length line, and [__init__] returns a counter for it. *)
Lemma zero_length_line_is_accepted :
  let cfg := {| line := {| coordinates := [5; 5; 5; 5];
                           direction := "vertical" |} |} in
  malformed (coordinates (line cfg)) /\
  ~ (forall cfg' : AppConfig Z,
       malformed (coordinates (line cfg')) -> exists e, __init__ cfg' = Raise e) /\
  exists s, __init__ cfg = Ok s /\ line_start s = (5, 5) /\ line_end s = (5, 5).
Proof.
  intros cfg.
  assert (Hm : malformed (coordinates (line cfg))).
  { right. exists 5, 5, 5, 5. split; reflexivity. }
  split; [exact Hm|]. split.
  - intros Hall. destruct (Hall cfg Hm) as [e He]. discriminate He.
  - eexists. repeat split.
Qed.

(** C4, amended.  Constructing the counter with a coordinate list whose
    length is not four, in particular with fewer than four coordinates,
    fails at construction with [ValueError].  A zero-length line (start
    equal to end) is accepted: construction succeeds, and on the resulting
    counter no call sequence ever records a crossing event or increments a
    counter. *)
Theorem init_validation :
  forall T (N : PyNumber T) (cfg : AppConfig T),
    (length (coordinates (line cfg)) <> 4%nat -> __init__ cfg = Raise ValueError) /\
    ((length (coordinates (line cfg)) < 4)%nat -> __init__ cfg = Raise ValueError) /\
    (forall x y, coordinates (line cfg) = [x; y; x; y] ->
       exists s0, __init__ cfg = Ok s0 /\
         line_start s0 = (x, y) /\ line_end s0 = (x, y) /\
         forall calls clk,
           crossing_events (fst (run s0 calls clk)) = [] /\
           get_total_count (fst (run s0 calls clk)) = 0).
Proof.
  intros T N cfg. split; [apply init_wrong_length|]. split.
  - intros Hlt. apply init_wrong_length. lia.
  - intros x y E. unfold __init__. rewrite E. eexists. split; [reflexivity|].
    split; [reflexivity|]. split; [reflexivity|]. intros calls clk.
    match goal with |- context [run ?s0 _ _] =>
      assert (Hi : idle_on_point s0) by (unfold idle_on_point; simpl; repeat split);
      pose proof (idle_on_point_run s0 calls clk Hi) as (_ & Ee & Eu & Ed & El & Er)
    end.
    unfold get_total_count. rewrite Ee, Eu, Ed, El, Er. auto.
Qed.

(** ** Orientation *)

Section Orientation.
Context {T : Type} `{PyNumber T}.
Implicit Types (s : LineCounter T).

Lemma update_obj_clock s clk obj :
  snd (update_obj (s, clk) obj) =
    match counted s obj with Some _ => snd (now clk) | None => clk end.
Proof.
  rewrite update_obj_eq. destruct (counted s obj); reflexivity.
Qed.

Lemma vertical_only_run s calls clk :
  vertical_only s -> vertical_only (fst (run s calls clk)).
Proof.
  apply (run_lift (fun s s' => vertical_only s -> vertical_only s')).
  - auto.
  - auto.
  - intros s0 clk0 obj (Et & Hf & El & Er).
    destruct (update_obj_fields s0 clk0 obj) as (_ & _ & _ & Ht & _ & Hc).
    pose proof (counted_orientation s0 obj) as Ho. rewrite Et in Ho.
    unfold vertical_only. rewrite Ht.
    destruct (counted s0 obj) as [d|].
    + destruct Hc as (_ & -> & _ & _ & -> & ->).
      specialize (Ho d eq_refl). simpl in Ho.
      repeat split; [assumption| |destruct Ho as [->| ->]; simpl; lia..].
      apply Forall_app. split; [assumption|]. constructor; [exact Ho|constructor].
    + destruct Hc as (_ & -> & _ & _ & -> & ->). repeat split; assumption.
  - intros s0 (Et & _). unfold vertical_only. simpl.
    repeat split; [assumption|constructor].
Qed.

Lemma horizontal_only_run s calls clk :
  horizontal_only s -> horizontal_only (fst (run s calls clk)).
Proof.
  apply (run_lift (fun s s' => horizontal_only s -> horizontal_only s')).
  - auto.
  - auto.
  - intros s0 clk0 obj (Et & Hf & Eu & Ed).
    destruct (update_obj_fields s0 clk0 obj) as (_ & _ & _ & Ht & _ & Hc).
    pose proof (counted_orientation s0 obj) as Ho.
    destruct (String.eqb_spec (direction_type s0) "vertical") as [E|_];
      [contradiction|].
    unfold horizontal_only. rewrite Ht.
    destruct (counted s0 obj) as [d|].
    + destruct Hc as (_ & -> & -> & -> & _ & _).
      specialize (Ho d eq_refl). simpl in Ho.
      repeat split; [assumption| |destruct Ho as [->| ->]; simpl; lia..].
      apply Forall_app. split; [assumption|]. constructor; [exact Ho|constructor].
    + destruct Hc as (_ & -> & -> & -> & _ & _). repeat split; assumption.
  - intros s0 (Et & _). unfold horizontal_only. simpl.
    repeat split; [assumption|constructor].
Qed.

Lemma counted_same_but_tag s s' obj :
  same_but_tag s s' -> counted s obj = counted s' obj.
Proof.
  intros (Eo & Hs & Hs'). unfold observable in Eo.
  injection Eo as Els Ele Ep Ec _ _ _ _ _.
  unfold counted. rewrite Els, Ele, Ep, Ec.
  destruct (previous_positions s' !! track_id obj) as [p|]; [|reflexivity].
  rewrite !determine_direction_other by assumption. reflexivity.
Qed.

Lemma same_but_tag_body s s' clk obj :
  same_but_tag s s' ->
  same_but_tag (fst (update_obj (s, clk) obj)) (fst (update_obj (s', clk) obj)) /\
  snd (update_obj (s, clk) obj) = snd (update_obj (s', clk) obj).
Proof.
  intros Hsim. pose proof (counted_same_but_tag s s' obj Hsim) as Ec.
  split; [|rewrite !update_obj_clock, Ec; reflexivity].
  destruct Hsim as (Eo & Hs & Hs'). unfold observable in Eo.
  injection Eo as Els Ele Ep Ecr Eev Eu Ed El Er.
  destruct (update_obj_fields s clk obj) as (_ & Hls & Hle & Ht & Hp & Hc).
  destruct (update_obj_fields s' clk obj) as (_ & Hls' & Hle' & Ht' & Hp' & Hc').
  unfold same_but_tag, observable. rewrite Ht, Ht', Hls, Hls', Hle, Hle', Hp, Hp'.
  rewrite <- Ec in Hc'.
  destruct (counted s obj) as [d|].
  - destruct Hc as (-> & -> & -> & -> & -> & ->).
    destruct Hc' as (-> & -> & -> & -> & -> & ->).
    rewrite Els, Ele, Ep, Ecr, Eev, Eu, Ed, El, Er. auto.
  - destruct Hc as (-> & -> & -> & -> & -> & ->).
    destruct Hc' as (-> & -> & -> & -> & -> & ->).
    rewrite Els, Ele, Ep, Ecr, Eev, Eu, Ed, El, Er. auto.
Qed.

Lemma same_but_tag_update objs : forall s s' clk,
  same_but_tag s s' ->
  same_but_tag (fst (update s objs clk)) (fst (update s' objs clk)) /\
  snd (update s objs clk) = snd (update s' objs clk).
Proof.
  unfold update. induction objs as [|obj objs IH]; intros s s' clk Hsim;
    cbn [fold_left].
  - split; [exact Hsim|reflexivity].
  - destruct (same_but_tag_body s s' clk obj Hsim) as [Hb Hk].
    destruct (update_obj (s, clk) obj) as [s1 c1].
    destruct (update_obj (s', clk) obj) as [s1' c1'].
    simpl in Hb, Hk. subst c1'. apply IH, Hb.
Qed.

Lemma same_but_tag_run calls : forall s s' clk,
  same_but_tag s s' ->
  same_but_tag (fst (run s calls clk)) (fst (run s' calls clk)).
Proof.
  unfold run. induction calls as [|c calls IH]; intros s s' clk Hsim;
    cbn [fold_left].
  - exact Hsim.
  - destruct c as [objs|]; cbn [do_call fst snd].
    + destruct (same_but_tag_update objs s s' clk Hsim) as [Hb Hk].
      destruct (update s objs clk) as [s1 c1].
      destruct (update s' objs clk) as [s1' c1'].
      simpl in Hb, Hk. subst c1'. apply IH, Hb.
    + apply IH. destruct Hsim as (Eo & Hs & Hs'). unfold observable in Eo.
      injection Eo as Els Ele _ _ _ _ _ _ _.
      unfold same_but_tag, observable. simpl. rewrite Els, Ele. auto.
Qed.
End Orientation.

(** ** Dedup *)

Section Dedup.
Context {T : Type} `{PyNumber T}.
Implicit Types (s : LineCounter T).

Lemma events_of_app i (l1 l2 : list (CrossingEvent T)) :
  events_of i (l1 ++ l2) = events_of i l1 ++ events_of i l2.
Proof. apply List.filter_app. Qed.

Lemma events_going_app d (l1 l2 : list (CrossingEvent T)) :
  events_going d (l1 ++ l2) = events_going d l1 ++ events_going d l2.
Proof. apply List.filter_app. Qed.

Lemma extends_refl i s : extends i s s.
Proof.
  exists []. unfold extends_by. rewrite app_nil_r. simpl.
  repeat split; auto; try lia. intros E; contradiction.
Qed.

Lemma extends_trans i s1 s2 s3 :
  extends i s1 s2 -> extends i s2 s3 -> extends i s1 s3.
Proof.
  intros [n1 (E1 & L1 & C1 & M1 & K1 & U1 & D1 & Le1 & R1 & T1)]
         [n2 (E2 & L2 & C2 & M2 & K2 & U2 & D2 & Le2 & R2 & T2)].
  exists (n1 ++ n2). unfold extends_by.
  rewrite !events_of_app, !events_going_app, !length_app, !Nat2Z.inj_add.
  repeat apply conj; try lia.
  - rewrite E2, E1, app_assoc. reflexivity.
  - destruct (events_of i n1) as [|e l] eqn:En1; [simpl; lia|].
    rewrite C2; [simpl in *; lia|]. apply M1. discriminate.
  - intros Hi. rewrite (C1 Hi), (C2 (K1 Hi)). reflexivity.
  - intros Hne. destruct (events_of i n1) as [|e l] eqn:En1.
    + apply M2. exact Hne.
    + apply K2, M1. discriminate.
  - intros Hi. apply K2, K1, Hi.
Qed.

Lemma extends_body i s clk obj : extends i s (fst (update_obj (s, clk) obj)).
Proof.
  destruct (update_obj_fields s clk obj) as (_ & _ & _ & _ & _ & Hc).
  destruct (counted s obj) as [d|] eqn:Ec.
  - destruct Hc as (Ecr & Eev & Eu & Ed & El & Er).
    destruct (counted_not_crossed s obj d Ec) as [Hnot _].
    eexists. unfold extends_by. split; [exact Eev|].
    unfold get_total_count. rewrite Ecr, Eu, Ed, El, Er.
    unfold events_of, events_going. cbn [List.filter ev_track_id ev_direction].
    destruct (Z.eqb_spec (track_id obj) i) as [Ei|Ei].
    + subst i. repeat apply conj; simpl; try lia.
      * intros Hin. contradiction.
      * intros _. set_solver.
      * intros Hin. contradiction.
      * destruct (String.eqb d "up"); simpl; lia.
      * destruct (String.eqb d "down"); simpl; lia.
      * destruct (String.eqb d "left"); simpl; lia.
      * destruct (String.eqb d "right"); simpl; lia.
      * destruct (counted_is_direction s obj d Ec) as [-> | [-> | [-> | ->]]];
          simpl; lia.
    + repeat apply conj; simpl; try lia.
      * reflexivity.
      * intros Hne. contradiction.
      * intros Hin. set_solver.
      * destruct (String.eqb d "up"); simpl; lia.
      * destruct (String.eqb d "down"); simpl; lia.
      * destruct (String.eqb d "left"); simpl; lia.
      * destruct (String.eqb d "right"); simpl; lia.
      * destruct (counted_is_direction s obj d Ec) as [-> | [-> | [-> | ->]]];
          simpl; lia.
  - destruct Hc as (Ecr & Eev & Eu & Ed & El & Er).
    exists []. unfold extends_by, get_total_count.
    rewrite Ecr, Eev, Eu, Ed, El, Er, app_nil_r. simpl.
    repeat apply conj; auto; try lia. intros E; contradiction.
Qed.

Lemma extends_run_updates i s ticks clk :
  extends i s (fst (run_updates s ticks clk)).
Proof.
  apply (run_updates_lift (extends i)).
  - apply extends_refl.
  - apply extends_trans.
  - apply extends_body.
Qed.
End Dedup.

(** C1. Dedup invariant.  Over any sequence of [update] calls without a
    [reset], started in any state, the event log only grows, and for every
    identity at most one of the appended events belongs to it (none when
    the identity is already in [crossed_ids]), however often its steps
    cross the line.  Each direction counter grows by exactly the number of
    appended events with that direction and the total by the number of
    appended events, so at most one increment is attributed to the
    identity.  Started from an empty log (a new counter, or right after
    [reset]) the whole log holds at most one event per identity. *)
Theorem dedup_invariant :
  forall T (N : PyNumber T) (self : LineCounter T)
         (ticks : list (list (TrackedObject T))) (clk : Clock) (i : Z),
    let s' := fst (run_updates self ticks clk) in
    exists new_events,
      crossing_events s' = crossing_events self ++ new_events /\
      (length (events_of i new_events) <= 1)%nat /\
      (i ∈ crossed_ids self -> events_of i new_events = []) /\
      count_up s' = count_up self
                    + Z.of_nat (length (events_going "up" new_events)) /\
      count_down s' = count_down self
                      + Z.of_nat (length (events_going "down" new_events)) /\
      count_left s' = count_left self
                      + Z.of_nat (length (events_going "left" new_events)) /\
      count_right s' = count_right self
                       + Z.of_nat (length (events_going "right" new_events)) /\
      get_total_count s' = get_total_count self
                           + Z.of_nat (length new_events) /\
      (crossing_events self = [] ->
       (length (events_of i (crossing_events s')) <= 1)%nat).
Proof.
  intros T N self ticks clk i s'.
  destruct (extends_run_updates i self ticks clk)
    as [new (E & L & C & _ & _ & U & D & Le & R & Tot)].
  exists new. repeat apply conj; try assumption.
  intros Hnil. subst s'. rewrite E, Hnil. exact L.
Qed.

(** ** Order independence *)

Section Order.
Context {T : Type} `{PyNumber T}.
Implicit Types (s : LineCounter T) (obj : TrackedObject T).

Lemma equiv_refl s : equiv s s.
Proof. unfold equiv, same_outcome. repeat split; reflexivity. Qed.

Lemma equiv_trans s1 s2 s3 : equiv s1 s2 -> equiv s2 s3 -> equiv s1 s3.
Proof.
  unfold equiv, same_outcome.
  intros (A1 & A2 & A3 & A4 & A5 & A6 & A7 & A8 & A9 & A10)
         (B1 & B2 & B3 & B4 & B5 & B6 & B7 & B8 & B9 & B10).
  repeat split; try congruence. eapply Permutation_trans; eassumption.
Qed.

Lemma counted_ext s s' obj :
  line_start s = line_start s' -> line_end s = line_end s' ->
  direction_type s = direction_type s' ->
  previous_positions s !! track_id obj = previous_positions s' !! track_id obj ->
  (track_id obj ∈ crossed_ids s <-> track_id obj ∈ crossed_ids s') ->
  counted s obj = counted s' obj.
Proof.
  intros Els Ele Et Ep Hc. unfold counted, _determine_direction.
  rewrite Els, Ele, Et, Ep.
  destruct (previous_positions s' !! track_id obj) as [p|]; [|reflexivity].
  destruct (line_intersection _ _ _ _); [|reflexivity].
  destruct (decide (track_id obj ∈ crossed_ids s)) as [Hi|Hi],
           (decide (track_id obj ∈ crossed_ids s')) as [Hi'|Hi'];
    try reflexivity; tauto.
Qed.

Lemma equiv_body s s' clk clk' obj :
  equiv s s' ->
  equiv (fst (update_obj (s, clk) obj)) (fst (update_obj (s', clk') obj)).
Proof.
  intros (Els & Ele & Et & Ep & Ec & Eu & Ed & El & Er & Hperm).
  assert (Ecnt : counted s obj = counted s' obj).
  { apply counted_ext; try assumption; [rewrite Ep|rewrite Ec]; reflexivity. }
  destruct (update_obj_fields s clk obj) as (_ & Hls & Hle & Ht & Hp & Hc).
  destruct (update_obj_fields s' clk' obj) as (_ & Hls' & Hle' & Ht' & Hp' & Hc').
  unfold equiv, same_outcome. rewrite Hls, Hls', Hle, Hle', Ht, Ht', Hp, Hp'.
  rewrite <- Ecnt in Hc'.
  destruct (counted s obj) as [d|].
  - destruct Hc as (-> & -> & -> & -> & -> & ->).
    destruct Hc' as (-> & -> & -> & -> & -> & ->).
    rewrite !map_app. repeat split; try congruence.
    apply Permutation_app; [exact Hperm|reflexivity].
  - destruct Hc as (-> & -> & -> & -> & -> & ->).
    destruct Hc' as (-> & -> & -> & -> & -> & ->).
    repeat split; try congruence.
Qed.

Lemma equiv_fold objs : forall st st' : LineCounter T * Clock,
  equiv (fst st) (fst st') ->
  equiv (fst (fold_left update_obj objs st)) (fst (fold_left update_obj objs st')).
Proof.
  induction objs as [|obj objs IH]; intros [s clk] [s' clk'] He; cbn [fold_left].
  - exact He.
  - apply IH. apply equiv_body. exact He.
Qed.

(** The loop body for one identity does not change what the loop body
    for another identity decides. *)
Lemma counted_frame s clk o1 o2 :
  track_id o1 <> track_id o2 ->
  counted (fst (update_obj (s, clk) o1)) o2 = counted s o2.
Proof.
  intros Hne.
  destruct (update_obj_fields s clk o1) as (_ & Hls & Hle & Ht & Hp & Hc).
  apply counted_ext; try assumption.
  - rewrite Hp. apply lookup_insert_ne. exact Hne.
  - destruct (counted s o1); destruct Hc as (-> & _); [set_solver|reflexivity].
Qed.

Lemma swap_body s clk clk' o1 o2 :
  track_id o1 <> track_id o2 ->
  equiv (fst (update_obj (update_obj (s, clk) o1) o2))
        (fst (update_obj (update_obj (s, clk') o2) o1)).
Proof.
  intros Hne.
  pose proof (counted_frame s clk o1 o2 Hne) as F12.
  pose proof (counted_frame s clk' o2 o1 (not_eq_sym Hne)) as F21.
  destruct (update_obj (s, clk) o1) as [s1 c1] eqn:E1.
  destruct (update_obj (s, clk') o2) as [s2 c2] eqn:E2.
  pose proof (update_obj_fields s clk o1) as H1. rewrite E1 in H1.
  pose proof (update_obj_fields s clk' o2) as H2. rewrite E2 in H2.
  cbn [fst] in *.
  destruct H1 as (_ & Hls1 & Hle1 & Ht1 & Hp1 & Hc1).
  destruct H2 as (_ & Hls2 & Hle2 & Ht2 & Hp2 & Hc2).
  destruct (update_obj_fields s1 c1 o2) as (_ & Hls12 & Hle12 & Ht12 & Hp12 & Hc12).
  destruct (update_obj_fields s2 c2 o1) as (_ & Hls21 & Hle21 & Ht21 & Hp21 & Hc21).
  rewrite F12 in Hc12. rewrite F21 in Hc21.
  unfold equiv, same_outcome.
  rewrite Hls12, Hls21, Hle12, Hle21, Ht12, Ht21, Hp12, Hp21,
    Hls1, Hls2, Hle1, Hle2, Ht1, Ht2, Hp1, Hp2.
  split; [reflexivity|]. split; [reflexivity|]. split; [reflexivity|].
  split; [apply insert_insert_ne, not_eq_sym, Hne|].
  destruct (counted s o1) as [d1|], (counted s o2) as [d2|];
    destruct Hc1 as (Ec1 & Ee1 & Eu1 & Ed1 & El1 & Er1);
    destruct Hc2 as (Ec2 & Ee2 & Eu2 & Ed2 & El2 & Er2);
    destruct Hc12 as (-> & -> & -> & -> & -> & ->);
    destruct Hc21 as (-> & -> & -> & -> & -> & ->);
    rewrite Ec1, Ec2, Ee1, Ee2, Eu1, Eu2, Ed1, Ed2, El1, El2, Er1, Er2;
    (split; [set_solver|]); repeat (split; [lia|]);
    rewrite ?map_app, <- ?app_assoc; try reflexivity.
  apply Permutation_app_head. simpl. apply perm_swap.
Qed.

Lemma update_permutation objs objs' :
  Permutation objs objs' ->
  NoDup (map track_id objs) ->
  forall st st' : LineCounter T * Clock,
    equiv (fst st) (fst st') ->
    equiv (fst (fold_left update_obj objs st))
          (fst (fold_left update_obj objs' st')).
Proof.
  induction 1 as [|x l l' Hp IH|x y l|l l' l'' Hp1 IH1 Hp2 IH2];
    intros Hnd [s clk] [s' clk'] He.
  - exact He.
  - cbn [fold_left]. apply IH.
    + simpl in Hnd. apply NoDup_cons_1_2 in Hnd. exact Hnd.
    + apply equiv_body. exact He.
  - cbn [fold_left]. apply equiv_fold.
    assert (Hne : track_id y <> track_id x).
    { simpl in Hnd. apply NoDup_cons_1_1 in Hnd. intros E. apply Hnd.
      rewrite E. left. }
    apply equiv_trans with (fst (update_obj (update_obj (s, clk') x) y)).
    + apply swap_body. exact Hne.
    + destruct (update_obj (s, clk') x) as [a ca] eqn:Ea.
      destruct (update_obj (s', clk') x) as [b cb] eqn:Eb.
      apply equiv_body.
      pose proof (equiv_body s s' clk' clk' x He) as Hx.
      rewrite Ea, Eb in Hx. exact Hx.
  - apply equiv_trans with (fst (fold_left update_obj l' (s, clk))).
    + apply IH1; [exact Hnd|apply equiv_refl].
    + apply IH2; [|exact He].
      assert (Hm : Permutation (map track_id l) (map track_id l'))
        by (apply Permutation_map; exact Hp1).
      rewrite <- Hm. exact Hnd.
Qed.
End Order.

(** C9. Order independence across identities.  For every counter state
    and every tick whose observations carry pairwise-distinct identities,
    [update] on any permutation of the tick yields the same
    [previous_positions], the same [crossed_ids], the same four counters,
    and the same events up to their timestamps and their order in the log
    (the clocks of the two runs are unrelated). *)
Theorem update_order_independent :
  forall T (N : PyNumber T) (self : LineCounter T)
         (tracked_objects permuted : list (TrackedObject T))
         (clk clk' : Clock),
    Permutation tracked_objects permuted ->
    NoDup (map track_id tracked_objects) ->
    let s1 := fst (update self tracked_objects clk) in
    let s2 := fst (update self permuted clk') in
    previous_positions s1 = previous_positions s2 /\
    crossed_ids s1 = crossed_ids s2 /\
    count_up s1 = count_up s2 /\
    count_down s1 = count_down s2 /\
    count_left s1 = count_left s2 /\
    count_right s1 = count_right s2 /\
    get_total_count s1 = get_total_count s2 /\
    Permutation (map untimed (crossing_events s1))
                (map untimed (crossing_events s2)).
Proof.
  intros T N self objs objs' clk clk' Hp Hnd s1 s2.
  destruct (update_permutation objs objs' Hp Hnd (self, clk) (self, clk')
              (equiv_refl self))
    as (_ & _ & _ & Ep & Ec & Eu & Ed & El & Er & Hperm).
  fold (update self objs clk) in *. fold (update self objs' clk') in *.
  fold s1 in Ep, Ec, Eu, Ed, El, Er, Hperm.
  fold s2 in Ep, Ec, Eu, Ed, El, Er, Hperm.
  unfold get_total_count. rewrite Eu, Ed, El, Er.
  repeat split; assumption.
Qed.

(** ** Non-finite centroids *)

(** C5, as the claim states it, fails: identity 1 stands at (0,0) and is
    next observed at (inf, 50).  The observation is not skipped: the
    non-finite centroid replaces the stored position, a crossing event
    with that centroid is appended and a counter is incremented. *)
Lemma non_finite_centroid_not_skipped :
  let s0 := {| config := diagonal_config;
               line_start := (0, 100)%float; line_end := (100, 0)%float;
               direction_type := "horizontal";
               previous_positions := {[ 1 := (0, 0)%float ]};
               crossed_ids := ∅; crossing_events := [];
               count_up := 0; count_down := 0;
               count_left := 0; count_right := 0 |} in
  let obj := car_f 1 infinity 50 in
  let s' := fst (update s0 [obj] sample_clock) in
  non_finite (centroid obj) /\
  fst (update (built (__init__ diagonal_config) s0) [car_f 1 0 0] sample_clock)
    = s0 /\
  previous_positions s' !! 1 = Some (infinity, 50%float) /\
  map untimed (crossing_events s') = [(1, "right", "car", (infinity, 50%float))] /\
  get_total_count s' = 1 /\
  ~ (forall (self : LineCounter float) (o : TrackedObject float) (clk : Clock),
       non_finite (centroid o) -> skipped self o (fst (update self [o] clk))).
Proof.
  intros s0 obj s'.
  assert (Hnf : non_finite (centroid obj)) by (left; reflexivity).
  assert (Hev : map untimed (crossing_events s')
                = [(1, "right", "car", (infinity, 50%float))])
    by (vm_compute; reflexivity).
  repeat apply conj; try exact Hnf; try exact Hev; try (vm_compute; reflexivity).
  intros Hall. destruct (Hall s0 obj sample_clock Hnf) as (_ & He & _).
  fold s' in He. rewrite He in Hev. discriminate Hev.
Qed.

Section NonInterference.
Context {T : Type} `{PyNumber T}.

(** An observation whose identity differs from all later ones of the tick
    can be processed last instead. *)
Lemma move_to_end (rest : list (TrackedObject T)) (obj : TrackedObject T) :
  (forall o, In o rest -> track_id o <> track_id obj) ->
  forall st st' : LineCounter T * Clock,
    equiv (fst st) (fst st') ->
    equiv (fst (fold_left update_obj rest (update_obj st obj)))
          (fst (update_obj (fold_left update_obj rest st') obj)).
Proof.
  induction rest as [|x l IH]; intros Hne [s clk] [s' clk'] He; cbn [fold_left].
  - apply equiv_body. exact He.
  - apply equiv_trans
      with (fst (fold_left update_obj l (update_obj (update_obj (s, clk) x) obj))).
    + apply equiv_fold. apply swap_body. apply not_eq_sym, Hne. left. reflexivity.
    + apply IH.
      * intros o Ho. apply Hne. right. exact Ho.
      * destruct (update_obj (s, clk) x) as [a ca] eqn:Ea.
        destruct (update_obj (s', clk') x) as [b cb] eqn:Eb.
        pose proof (equiv_body s s' clk clk' x He) as Hx.
        rewrite Ea, Eb in Hx. exact Hx.
Qed.

Lemma update_app (self : LineCounter T) l1 l2 clk :
  update self (l1 ++ l2) clk = fold_left update_obj l2 (update self l1 clk).
Proof. unfold update. apply fold_left_app. Qed.

(** One observation among a tick of other identities: the outcome is that
    of the tick without it, followed by the loop body on it. *)
Lemma update_one_among (self : LineCounter T) before after obj clk :
  (forall o, In o after -> track_id o <> track_id obj) ->
  exists clk',
    equiv (fst (update self (before ++ obj :: after) clk))
          (fst (update_obj (fst (update self (before ++ after) clk), clk') obj)).
Proof.
  intros Hne. exists (snd (update self (before ++ after) clk)).
  rewrite !update_app. cbn [fold_left].
  rewrite <- surjective_pairing.
  apply move_to_end; [exact Hne|apply equiv_refl].
Qed.
End NonInterference.

(** C5, amended.  During [update], an observation whose centroid is
    non-finite is processed like any other: the tick does not crash, the
    centroid is stored as the identity's previous position, and at most
    one crossing event (with its counter increment) is recorded for it,
    exactly when the comparisons on it report an intersection for an
    identity not yet counted.  All other identities in the same tick are
    processed as if the observation were absent: their stored positions,
    their membership in [crossed_ids] and their events (up to timestamps
    and log order) are those of the tick without it. *)
Theorem non_finite_centroid_is_processed :
  forall (self : LineCounter float)
         (before after : list (TrackedObject float))
         (obj : TrackedObject float) (clk : Clock),
    non_finite (centroid obj) ->
    (forall o, In o (before ++ after) -> track_id o <> track_id obj) ->
    let s' := fst (update self (before ++ obj :: after) clk) in
    let without := fst (update self (before ++ after) clk) in
    previous_positions s'
      = <[track_id obj := centroid obj]> (previous_positions without) /\
    (forall j, j <> track_id obj ->
       (j ∈ crossed_ids s' <-> j ∈ crossed_ids without)) /\
    exists extra,
      Permutation (map untimed (crossing_events s'))
                  (map untimed (crossing_events without) ++ extra) /\
      extra = match counted without obj with
              | Some d => [(track_id obj, d, class_name obj, centroid obj)]
              | None => []
              end /\
      get_total_count s' = get_total_count without + Z.of_nat (length extra).
Proof.
  intros self before after obj clk _ Hne s' without.
  destruct (update_one_among self before after obj clk) as [clk' He].
  { intros o Ho. apply Hne. apply in_or_app. right. exact Ho. }
  fold s' without in He.
  destruct He as (_ & _ & _ & Ep & Ec & Eu & Ed & El & Er & Hperm).
  destruct (update_obj_fields without clk' obj) as (_ & _ & _ & _ & Hp & Hc).
  unfold get_total_count. rewrite Ep, Ec, Eu, Ed, El, Er, Hp.
  split; [reflexivity|].
  pose proof (counted_is_direction without obj) as Hd.
  destruct (counted without obj) as [d|].
  - destruct Hc as (Ecr & Eev & -> & -> & -> & ->). split.
    + intros j Hj. rewrite Ecr. set_solver.
    + eexists. split; [|split; [reflexivity|]].
      * rewrite Hperm, Eev, map_app. reflexivity.
      * destruct (Hd d eq_refl) as [-> | [-> | [-> | ->]]]; simpl; lia.
  - destruct Hc as (Ecr & Eev & -> & -> & -> & ->). split.
    + intros j Hj. rewrite Ecr. reflexivity.
    + exists []. split; [|split; [reflexivity|simpl; lia]].
      rewrite Hperm, Eev, app_nil_r. reflexivity.
Qed.

Lemma non_finite_centroid_is_processed_witness :
  let self := {| config := diagonal_config;
                 line_start := (0, 100)%float; line_end := (100, 0)%float;
                 direction_type := "horizontal";
                 previous_positions := {[ 1 := (0, 0)%float ]};
                 crossed_ids := ∅; crossing_events := [];
                 count_up := 0; count_down := 0;
                 count_left := 0; count_right := 0 |} in
  let before := [car_f 2 10 10] in
  let after := [car_f 3 20 20] in
  let obj := car_f 1 infinity 50 in
  let s' := fst (update self (before ++ obj :: after) sample_clock) in
  let without := fst (update self (before ++ after) sample_clock) in
  non_finite (centroid obj) /\
  (forall o, In o (before ++ after) -> track_id o <> track_id obj) /\
  previous_positions s'
    = <[track_id obj := centroid obj]> (previous_positions without) /\
  (forall j, j <> track_id obj ->
     (j ∈ crossed_ids s' <-> j ∈ crossed_ids without)) /\
  exists extra,
    Permutation (map untimed (crossing_events s'))
                (map untimed (crossing_events without) ++ extra) /\
    extra = match counted without obj with
            | Some d => [(track_id obj, d, class_name obj, centroid obj)]
            | None => []
            end /\
    get_total_count s' = get_total_count without + Z.of_nat (length extra).
Proof.
  intros self before after obj s' without.
  assert (Hnf : non_finite (centroid obj)) by (left; reflexivity).
  assert (Hne : forall o, In o (before ++ after) -> track_id o <> track_id obj).
  { intros o [<-|[<-|[]]]; simpl; lia. }
  split; [exact Hnf|]. split; [exact Hne|].
  exact (non_finite_centroid_is_processed self before after obj sample_clock
           Hnf Hne).
Defined.

(** C10. Orientation partitions the counters.  On a counter built from a
    configuration whose direction tag is the string "vertical", after any
    sequence of [update] and [reset] calls every logged event has direction
    up or down and [count_left] and [count_right] are zero.  With any other
    tag, "horizontal" or not, every logged event has direction left or
    right, [count_up] and [count_down] are zero, and the counter built
    from the same coordinates with the tag "horizontal" is constructed as
    well and goes through the same states (same line, positions, crossed
    identities, event log and counters) under the same calls and clock:
    no call raises. *)
Theorem orientation_partitions_counters :
  forall T (N : PyNumber T) (cfg : AppConfig T) (s0 : LineCounter T)
         (calls : list (call T)) (clk : Clock),
    __init__ cfg = Ok s0 ->
    let s := fst (run s0 calls clk) in
    (direction (line cfg) = "vertical" ->
       Forall (fun e => ev_direction e = "up" \/ ev_direction e = "down")
              (crossing_events s) /\
       count_left s = 0 /\ count_right s = 0) /\
    (direction (line cfg) <> "vertical" ->
       Forall (fun e => ev_direction e = "left" \/ ev_direction e = "right")
              (crossing_events s) /\
       count_up s = 0 /\ count_down s = 0 /\
       exists h0,
         __init__ {| line := {| coordinates := coordinates (line cfg);
                                direction := "horizontal" |} |} = Ok h0 /\
         observable (fst (run h0 calls clk)) = observable s).
Proof.
  intros T N cfg s0 calls clk Hinit s.
  unfold __init__ in Hinit.
  destruct (coordinates (line cfg)) as [|x1 [|y1 [|x2 [|y2 [|z l]]]]] eqn:Ecoord;
    try discriminate Hinit.
  injection Hinit as <-. split.
  - intros Ev.
    match goal with s := fst (run ?i _ _) |- _ =>
      assert (Hv : vertical_only i)
        by (unfold vertical_only; simpl; repeat split; [exact Ev|constructor]);
      pose proof (vertical_only_run i calls clk Hv) as (_ & Hf & El & Er)
    end.
    repeat split; assumption.
  - intros Ev.
    match goal with s := fst (run ?i _ _) |- _ =>
      assert (Hh : horizontal_only i)
        by (unfold horizontal_only; simpl; repeat split; [exact Ev|constructor]);
      pose proof (horizontal_only_run i calls clk Hh) as (_ & Hf & Eu & Ed)
    end.
    repeat (split; [assumption|]).
    unfold __init__. cbn [line coordinates direction].
    eexists. split; [reflexivity|].
    apply same_but_tag_run. unfold same_but_tag, observable. simpl.
    repeat split; [discriminate|exact Ev].
Qed.

Lemma orientation_partitions_counters_witness :
  let calls := [Update [car 7 640 480]; Update [car 7 640 520];
                Update [car 7 640 480]; Reset;
                Update [car 7 640 520]; Update [car 7 640 480]] in
  let s := fst (run default_counter calls sample_clock) in
  __init__ default_config = Ok default_counter /\
  map untimed (crossing_events s) = [(7, "up", "car", (640, 480))] /\
  (direction (line default_config) = "vertical" ->
     Forall (fun e => ev_direction e = "up" \/ ev_direction e = "down")
            (crossing_events s) /\
     count_left s = 0 /\ count_right s = 0) /\
  (direction (line default_config) <> "vertical" ->
     Forall (fun e => ev_direction e = "left" \/ ev_direction e = "right")
            (crossing_events s) /\
     count_up s = 0 /\ count_down s = 0 /\
     exists h0,
       __init__ {| line := {| coordinates := coordinates (line default_config);
                              direction := "horizontal" |} |} = Ok h0 /\
       observable (fst (run h0 calls sample_clock)) = observable s).
Proof.
  intros calls s. split; [reflexivity|]. split; [reflexivity|].
  exact (orientation_partitions_counters Z PyInt default_config
           default_counter calls sample_clock eq_refl).
Defined.

Lemma first_sighting_noop_witness :
  let obj := car 7 640 520 in
  let s' := fst (update default_counter [obj] sample_clock) in
  previous_positions default_counter !! track_id obj = None /\
  update_obj (default_counter, sample_clock) obj =
    (set_previous_positions default_counter
       (<[track_id obj := centroid obj]> (previous_positions default_counter)),
     sample_clock) /\
  update default_counter [obj] sample_clock
    = update_obj (default_counter, sample_clock) obj /\
  previous_positions s' !! track_id obj = Some (centroid obj) /\
  crossing_events s' = crossing_events default_counter /\
  crossed_ids s' = crossed_ids default_counter /\
  count_up s' = count_up default_counter /\
  count_down s' = count_down default_counter /\
  count_left s' = count_left default_counter /\
  count_right s' = count_right default_counter /\
  get_total_count s' = get_total_count default_counter.
Proof.
  intros obj s'. split; [reflexivity|].
  exact (first_sighting_noop default_counter obj sample_clock eq_refl).
Defined.

Lemma update_order_independent_witness :
  let self := fst (update default_counter
                     [car 1 640 480; car 2 100 520; car 3 50 50] sample_clock) in
  let tick := [car 1 640 520; car 2 100 480; car 3 60 60] in
  let permuted := [car 2 100 480; car 3 60 60; car 1 640 520] in
  let s1 := fst (update self tick sample_clock) in
  let s2 := fst (update self permuted (fun _ => "2024-01-01 00:00:01.000")) in
  Permutation tick permuted /\
  NoDup (map track_id tick) /\
  map untimed (crossing_events s1)
    = [(1, "down", "car", (640, 520)); (2, "up", "car", (100, 480))] /\
  map untimed (crossing_events s2)
    = [(2, "up", "car", (100, 480)); (1, "down", "car", (640, 520))] /\
  previous_positions s1 = previous_positions s2 /\
  crossed_ids s1 = crossed_ids s2 /\
  count_up s1 = count_up s2 /\
  count_down s1 = count_down s2 /\
  count_left s1 = count_left s2 /\
  count_right s1 = count_right s2 /\
  get_total_count s1 = get_total_count s2 /\
  Permutation (map untimed (crossing_events s1))
              (map untimed (crossing_events s2)).
Proof.
  intros self tick permuted s1 s2.
  assert (Hp : Permutation tick permuted).
  { unfold tick, permuted.
    apply (Permutation_cons_app [_; _] []). reflexivity. }
  assert (Hnd : NoDup (map track_id tick)).
  { simpl. repeat constructor; rewrite ?list_elem_of_In; simpl; lia. }
  split; [exact Hp|]. split; [exact Hnd|].
  split; [reflexivity|]. split; [reflexivity|].
  exact (update_order_independent Z PyInt self tick permuted sample_clock
           (fun _ => "2024-01-01 00:00:01.000") Hp Hnd).
Defined.

(** The end-to-end scenario: line (0,500)-(1280,500), tag vertical;
    identity 7 seen at (640,480), then at (640,520): one event, direction
    down; seen again at (640,480): no further event. *)
Example end_to_end_scenario :
  let s2 := fst (run_updates default_counter
                   [[car 7 640 480]; [car 7 640 520]] sample_clock) in
  let s3 := fst (update s2 [car 7 640 480] sample_clock) in
  map untimed (crossing_events s2) = [(7, "down", "car", (640, 520))] /\
  get_statistics s2 !! "down" = Some 1 /\
  get_statistics s2 !! "total" = Some 1 /\
  line_intersection (640, 520) (640, 480) (line_start s2) (line_end s2) = true /\
  crossing_events s3 = crossing_events s2 /\
  get_statistics s3 = get_statistics s2.
Proof. repeat split. Qed.

(** * Further properties of the code *)

(** ** The line counter: registry, bookkeeping, log *)

Section Registry.
Context {T : Type} `{PyNumber T}.
Implicit Types (s : LineCounter T) (obj : TrackedObject T) (clk : Clock).

Lemma update_snoc s objs obj clk :
  update s (objs ++ [obj]) clk = update_obj (update s objs clk) obj.
Proof. rewrite update_app. reflexivity. Qed.

Lemma last_seen_snoc (i : Z) (objs : list (TrackedObject T)) obj :
  last_seen i (objs ++ [obj]) =
    if Z.eqb (track_id obj) i then Some obj else last_seen i objs.
Proof. unfold last_seen. rewrite rev_unit. reflexivity. Qed.

Lemma run_updates_concat ticks : forall s clk,
  run_updates s ticks clk = update s (concat ticks) clk.
Proof.
  unfold run_updates.
  induction ticks as [|objs ticks IH]; intros s clk; cbn [fold_left concat fst snd].
  - reflexivity.
  - rewrite update_app. destruct (update s objs clk) as [s1 c1].
    rewrite IH. reflexivity.
Qed.

Lemma previous_positions_update s objs clk (i : Z) :
  previous_positions (fst (update s objs clk)) !! i =
    match last_seen i objs with
    | Some o => Some (centroid o)
    | None => previous_positions s !! i
    end.
Proof.
  induction objs as [|obj objs IH] using rev_ind.
  - reflexivity.
  - rewrite update_snoc, last_seen_snoc.
    destruct (update s objs clk) as [s1 c1]. cbn [fst] in IH.
    destruct (update_obj_fields s1 c1 obj) as (_ & _ & _ & _ & Hp & _).
    rewrite Hp. destruct (Z.eqb_spec (track_id obj) i) as [->|Hne].
    + apply lookup_insert_eq.
    + rewrite lookup_insert_ne by exact Hne. exact IH.
Qed.
End Registry.

(** X1. The registry keeps the latest position.  After [update] on a
    tick, and after any sequence of ticks, the stored previous position
    of an identity is the centroid of its last observation; an identity
    absent from the ticks keeps the entry it had, or none. *)
Theorem previous_positions_latest :
  forall T (N : PyNumber T) (self : LineCounter T)
         (ticks : list (list (TrackedObject T))) (clk : Clock) (i : Z),
    (forall tracked_objects,
       previous_positions (fst (update self tracked_objects clk)) !! i =
         match last_seen i tracked_objects with
         | Some o => Some (centroid o)
         | None => previous_positions self !! i
         end) /\
    previous_positions (fst (run_updates self ticks clk)) !! i =
      match last_seen i (concat ticks) with
      | Some o => Some (centroid o)
      | None => previous_positions self !! i
      end.
Proof.
  intros T N self ticks clk i. split.
  - intros objs. apply previous_positions_update.
  - rewrite run_updates_concat. apply previous_positions_update.
Qed.

(** X2. Frame boundaries do not matter to the counter.  A sequence of
    [update] calls yields the same counter, and leaves the same clock, as
    one [update] call on the concatenation of their ticks; in particular
    splitting a tick in two calls changes nothing. *)
Theorem update_ignores_tick_boundaries :
  forall T (N : PyNumber T) (self : LineCounter T)
         (ticks : list (list (TrackedObject T)))
         (first rest : list (TrackedObject T)) (clk : Clock),
    run_updates self ticks clk = update self (concat ticks) clk /\
    update self (first ++ rest) clk =
      update (fst (update self first clk)) rest (snd (update self first clk)).
Proof.
  intros T N self ticks first rest clk. split.
  - apply run_updates_concat.
  - rewrite update_app. destruct (update self first clk); reflexivity.
Qed.

Section Bookkeeping.
Context {T : Type} `{PyNumber T}.
Implicit Types (s : LineCounter T) (log : list (CrossingEvent T)).

Lemma directions_partition log :
  Forall (fun e => ev_direction e = "up" \/ ev_direction e = "down" \/
                   ev_direction e = "left" \/ ev_direction e = "right") log ->
  (length (events_going "up" log) + length (events_going "down" log) +
   length (events_going "left" log) + length (events_going "right" log)
   = length log)%nat.
Proof.
  induction 1 as [|e l He _ IH]; [reflexivity|].
  unfold events_going in *. cbn [List.filter].
  destruct He as [-> | [-> | [-> | ->]]]; simpl; lia.
Qed.

Lemma events_of_none (i : Z) log :
  i ∉ map ev_track_id log -> events_of i log = [].
Proof.
  induction log as [|e l IH]; [reflexivity|].
  intros Hn. unfold events_of in *. cbn [List.filter map] in *.
  destruct (Z.eqb_spec (ev_track_id e) i) as [E|E].
  - exfalso. apply Hn. rewrite E. left.
  - apply IH. intros Hi. apply Hn. right. exact Hi.
Qed.

Lemma events_of_once (i : Z) log :
  NoDup (map ev_track_id log) -> i ∈ map ev_track_id log ->
  length (events_of i log) = 1%nat.
Proof.
  induction log as [|e l IH]; intros Hnd Hi.
  - inversion Hi.
  - cbn [map] in Hnd, Hi. apply NoDup_cons in Hnd as [Hne Hnd].
    unfold events_of in *. cbn [List.filter].
    destruct (Z.eqb_spec (ev_track_id e) i) as [E|E].
    + subst i. fold (events_of (ev_track_id e) l).
      rewrite (events_of_none _ _ Hne). reflexivity.
    + apply IH; [exact Hnd|].
      apply elem_of_cons in Hi as [Hi|Hi]; [congruence|exact Hi].
Qed.

Lemma bookkept_body s clk obj :
  bookkept s -> bookkept (fst (update_obj (s, clk) obj)).
Proof.
  intros (Hsub & Hnd & Hset & Hu & Hd & Hl & Hr & Hdir).
  destruct (update_obj_fields s clk obj) as (_ & _ & _ & _ & Hp & Hc).
  unfold bookkept. rewrite Hp, dom_insert_L.
  destruct (counted s obj) as [d|] eqn:Ec.
  - destruct (counted_not_crossed s obj d Ec) as [Hnot _].
    pose proof (counted_is_direction s obj d Ec) as Hfour.
    destruct Hc as (-> & -> & -> & -> & -> & ->).
    rewrite map_app, !events_going_app, !length_app, !Nat2Z.inj_add.
    cbn [map ev_track_id].
    repeat apply conj.
    + set_solver.
    + apply NoDup_app. split; [exact Hnd|]. split; [|apply NoDup_singleton].
      intros x Hx Hx'. apply list_elem_of_singleton in Hx'. subst x.
      apply Hnot. rewrite Hset. apply elem_of_list_to_set. exact Hx.
    + rewrite list_to_set_snoc_L, <- Hset. set_solver.
    + rewrite Hu. unfold events_going. cbn [List.filter ev_direction].
      destruct (String.eqb d "up"); simpl; lia.
    + rewrite Hd. unfold events_going. cbn [List.filter ev_direction].
      destruct (String.eqb d "down"); simpl; lia.
    + rewrite Hl. unfold events_going. cbn [List.filter ev_direction].
      destruct (String.eqb d "left"); simpl; lia.
    + rewrite Hr. unfold events_going. cbn [List.filter ev_direction].
      destruct (String.eqb d "right"); simpl; lia.
    + apply Forall_app. split; [exact Hdir|]. constructor; [exact Hfour|constructor].
  - destruct Hc as (-> & -> & -> & -> & -> & ->).
    repeat apply conj; try assumption. set_solver.
Qed.

Lemma bookkept_reset s : bookkept (reset s).
Proof.
  unfold bookkept. cbn [reset crossed_ids previous_positions crossing_events
    count_up count_down count_left count_right].
  repeat apply conj; try reflexivity; constructor.
Qed.

Lemma bookkept_run s calls clk :
  bookkept s -> bookkept (fst (run s calls clk)).
Proof.
  apply (run_lift (fun s s' => bookkept s -> bookkept s')).
  - auto.
  - auto.
  - intros s0 clk0 obj. apply bookkept_body.
  - intros s0 _. apply bookkept_reset.
Qed.

Lemma bookkept_init (cfg : AppConfig T) s0 : __init__ cfg = Ok s0 -> bookkept s0.
Proof.
  unfold __init__.
  destruct (coordinates (line cfg)) as [|x1 [|y1 [|x2 [|y2 [|z l]]]]];
    try discriminate.
  intros [= <-]. unfold bookkept.
  cbn [crossed_ids previous_positions crossing_events
       count_up count_down count_left count_right].
  repeat apply conj; try reflexivity; constructor.
Qed.

(** What [bookkept] gives a reader of the counter. *)
Lemma bookkept_reading s :
  bookkept s ->
  crossed_ids s ⊆ dom (previous_positions s) /\
  (forall i, length (events_of i (crossing_events s))
             = if decide (i ∈ crossed_ids s) then 1%nat else 0%nat) /\
  get_total_count s = Z.of_nat (length (crossing_events s)) /\
  get_total_count s = Z.of_nat (size (crossed_ids s)).
Proof.
  intros (Hsub & Hnd & Hset & Hu & Hd & Hl & Hr & Hdir).
  pose proof (directions_partition _ Hdir) as Hsum.
  assert (Htot : get_total_count s = Z.of_nat (length (crossing_events s))).
  { unfold get_total_count. rewrite Hu, Hd, Hl, Hr. lia. }
  repeat apply conj; try assumption.
  - intros i. destruct (decide (i ∈ crossed_ids s)) as [Hi|Hi].
    + apply events_of_once; [exact Hnd|].
      rewrite Hset in Hi. apply elem_of_list_to_set in Hi. exact Hi.
    + rewrite events_of_none; [reflexivity|].
      intros Hin. apply Hi. rewrite Hset. apply elem_of_list_to_set. exact Hin.
  - rewrite Htot, Hset, size_list_to_set by exact Hnd.
    rewrite length_map. reflexivity.
Qed.
End Bookkeeping.

(** X3. The bookkeeping of the counter is consistent.  On a counter built
    by [__init__], after any sequence of [update] and [reset] calls: every
    identity in [crossed_ids] has a stored previous position; the log
    holds exactly one event for each identity in [crossed_ids] and none
    for any other; [get_total_count] is the length of the log and the
    number of identities in [crossed_ids]; each direction counter is the
    number of logged events with that direction. *)
Theorem counter_bookkeeping :
  forall T (N : PyNumber T) (cfg : AppConfig T) (s0 : LineCounter T)
         (calls : list (call T)) (clk : Clock),
    __init__ cfg = Ok s0 ->
    let s := fst (run s0 calls clk) in
    crossed_ids s ⊆ dom (previous_positions s) /\
    (forall i, length (events_of i (crossing_events s))
               = if decide (i ∈ crossed_ids s) then 1%nat else 0%nat) /\
    get_total_count s = Z.of_nat (length (crossing_events s)) /\
    get_total_count s = Z.of_nat (size (crossed_ids s)) /\
    count_up s = Z.of_nat (length (events_going "up" (crossing_events s))) /\
    count_down s = Z.of_nat (length (events_going "down" (crossing_events s))) /\
    count_left s = Z.of_nat (length (events_going "left" (crossing_events s))) /\
    count_right s = Z.of_nat (length (events_going "right" (crossing_events s))).
Proof.
  intros T N cfg s0 calls clk Hinit s.
  pose proof (bookkept_run s0 calls clk (bookkept_init cfg s0 Hinit)) as Hb.
  fold s in Hb.
  destruct (bookkept_reading s Hb) as (H1 & H2 & H3 & H4).
  destruct Hb as (_ & _ & _ & Hu & Hd & Hl & Hr & _).
  repeat apply conj; assumption.
Qed.

Lemma counter_bookkeeping_witness :
  let calls := [Update [car 7 640 480; car 8 100 520];
                Update [car 7 640 520; car 8 100 480];
                Update [car 7 640 480]; Reset;
                Update [car 7 640 520]; Update [car 7 640 480]] in
  let s := fst (run default_counter calls sample_clock) in
  __init__ default_config = Ok default_counter /\
  crossed_ids s ⊆ dom (previous_positions s) /\
  (forall i, length (events_of i (crossing_events s))
             = if decide (i ∈ crossed_ids s) then 1%nat else 0%nat) /\
  get_total_count s = Z.of_nat (length (crossing_events s)) /\
  get_total_count s = Z.of_nat (size (crossed_ids s)) /\
  count_up s = Z.of_nat (length (events_going "up" (crossing_events s))) /\
  count_down s = Z.of_nat (length (events_going "down" (crossing_events s))) /\
  count_left s = Z.of_nat (length (events_going "left" (crossing_events s))) /\
  count_right s = Z.of_nat (length (events_going "right" (crossing_events s))).
Proof.
  intros calls s. split; [reflexivity|].
  exact (counter_bookkeeping Z PyInt default_config default_counter calls
           sample_clock eq_refl).
Defined.

Section Log.
Context {T : Type} `{PyNumber T}.
Implicit Types (s : LineCounter T) (st : LineCounter T * Clock).

Lemma map_seq_offset {A : Type} (g : nat -> A) (n : nat) : forall a : nat,
  map g (seq a n) = map (fun m => g (a + m)%nat) (seq 0 n).
Proof.
  induction n as [|n IH]; intros a; [reflexivity|].
  cbn [seq map]. rewrite Nat.add_0_r. f_equal.
  rewrite (IH (S a)), <- seq_shift, map_map. apply map_ext.
  intros m. f_equal. lia.
Qed.

Lemma stamped_refl st : stamped_by st st [].
Proof. unfold stamped_by. rewrite app_nil_r. repeat split. Qed.

Lemma stamped_trans st1 st2 st3 n1 n2 :
  stamped_by st1 st2 n1 -> stamped_by st2 st3 n2 ->
  stamped_by st1 st3 (n1 ++ n2).
Proof.
  intros (E1 & S1 & C1) (E2 & S2 & C2). unfold stamped_by.
  rewrite length_app. repeat apply conj.
  - rewrite E2, E1, app_assoc. reflexivity.
  - rewrite map_app, seq_app, map_app, S1, S2. f_equal.
    rewrite (map_seq_offset (snd st1)). apply map_ext. intros m.
    rewrite C1. reflexivity.
  - intros n. rewrite C2, C1. f_equal. lia.
Qed.

Lemma stamped_body st obj :
  exists new, stamped_by st (update_obj st obj) new /\
              Forall (fun e => reports e obj) new.
Proof.
  destruct st as [s clk].
  destruct (update_obj_fields s clk obj) as (_ & _ & _ & _ & _ & Hc).
  pose proof (update_obj_clock s clk obj) as Hk.
  destruct (counted s obj) as [d|].
  - destruct Hc as (_ & Hev & _). eexists. split.
    + unfold stamped_by. split; [exact Hev|]. split; [reflexivity|].
      intros n. rewrite Hk. reflexivity.
    + constructor; [|constructor]. unfold reports. repeat split.
  - destruct Hc as (_ & Hev & _). exists []. split; [|constructor].
    unfold stamped_by. rewrite Hev, app_nil_r, Hk. repeat split.
Qed.

Lemma stamped_update objs : forall st,
  exists new, stamped_by st (fold_left update_obj objs st) new /\
              Forall (fun e => exists o, In o objs /\ reports e o) new.
Proof.
  induction objs as [|obj objs IH]; intros st; cbn [fold_left].
  - exists []. split; [apply stamped_refl|constructor].
  - destruct (stamped_body st obj) as [n1 [S1 F1]].
    destruct (IH (update_obj st obj)) as [n2 [S2 F2]].
    exists (n1 ++ n2). split; [eapply stamped_trans; eassumption|].
    apply Forall_app. split.
    + eapply Forall_impl; [exact F1|]. intros e He. exists obj.
      split; [left; reflexivity|exact He].
    + eapply Forall_impl; [exact F2|]. intros e [o [Ho He]]. exists o.
      split; [right; exact Ho|exact He].
Qed.
End Log.

(** X4. Events are stamped with successive clock readings.  Over any
    sequence of [update] calls the log grows by new events whose
    timestamps are, in log order, the first readings of the clock the
    calls started with, one reading per event; the clock left behind is
    the initial clock advanced by exactly that many readings. *)
Theorem events_stamped_in_clock_order :
  forall T (N : PyNumber T) (self : LineCounter T)
         (ticks : list (list (TrackedObject T))) (clk : Clock),
    let st' := run_updates self ticks clk in
    exists new_events,
      crossing_events (fst st') = crossing_events self ++ new_events /\
      map ev_timestamp new_events = map clk (seq 0 (length new_events)) /\
      forall n, snd st' n = clk (length new_events + n)%nat.
Proof.
  intros T N self ticks clk st'. subst st'. rewrite run_updates_concat.
  destruct (stamped_update (concat ticks) (self, clk)) as [new [Hs _]].
  exists new. exact Hs.
Qed.

(** X5. Events report observations.  Every event that a sequence of
    [update] calls appends to the log carries the identity, the class name
    and the centroid of one of the observations passed to those calls:
    the counter never logs an identity or a position it was not given. *)
Theorem events_report_observations :
  forall T (N : PyNumber T) (self : LineCounter T)
         (ticks : list (list (TrackedObject T))) (clk : Clock),
    exists new_events,
      crossing_events (fst (run_updates self ticks clk))
        = crossing_events self ++ new_events /\
      Forall (fun e => exists tick o,
                In tick ticks /\ In o tick /\
                ev_track_id e = track_id o /\
                ev_class_name e = class_name o /\
                ev_centroid e = centroid o) new_events.
Proof.
  intros T N self ticks clk. rewrite run_updates_concat.
  destruct (stamped_update (concat ticks) (self, clk)) as [new [(He & _) Hf]].
  exists new. split; [exact He|].
  eapply Forall_impl; [exact Hf|]. intros e [o [Ho Hr]].
  apply in_concat in Ho as [tick [Ht Ho]]. exists tick, o.
  destruct Hr as (A & B & C). repeat split; assumption.
Qed.

Section Stationary.
Context {T : Type} `{PyNumber T}.
Implicit Types (s : LineCounter T) (obj : TrackedObject T) (clk : Clock).

Lemma set_previous_positions_same s :
  set_previous_positions s (previous_positions s) = s.
Proof. destruct s; reflexivity. Qed.

Lemma update_obj_stationary s clk obj :
  previous_positions s !! track_id obj = Some (centroid obj) ->
  update_obj (s, clk) obj = (s, clk).
Proof.
  intros E. unfold update_obj. rewrite E, line_intersection_zero_step.
  rewrite (insert_id _ _ _ E), set_previous_positions_same. reflexivity.
Qed.

Lemma update_stationary objs : forall s clk,
  Forall (fun o => previous_positions s !! track_id o = Some (centroid o)) objs ->
  update s objs clk = (s, clk).
Proof.
  unfold update. induction objs as [|obj objs IH]; intros s clk Hall;
    cbn [fold_left]; [reflexivity|].
  apply Forall_cons in Hall as [Ho Hall].
  rewrite (update_obj_stationary s clk obj Ho). apply IH, Hall.
Qed.

Lemma last_seen_distinct (objs : list (TrackedObject T)) obj :
  NoDup (map track_id objs) -> In obj objs ->
  last_seen (track_id obj) objs = Some obj.
Proof.
  induction objs as [|x l IH] using rev_ind; intros Hnd Hin; [destruct Hin|].
  rewrite last_seen_snoc. rewrite map_app in Hnd.
  apply NoDup_app in Hnd as (Hl & Hdisj & _).
  apply in_app_or in Hin as [Hin|[->|[]]].
  - destruct (Z.eqb_spec (track_id x) (track_id obj)) as [E|E].
    + exfalso. apply (Hdisj (track_id obj)).
      * apply list_elem_of_In, in_map, Hin.
      * rewrite <- E. left.
    + apply IH; assumption.
  - rewrite Z.eqb_refl. reflexivity.
Qed.
End Stationary.

(** X6. A standing object is never counted.  An [update] on a tick in
    which every observation has the centroid already stored for its
    identity changes nothing: no event, no counter, and the clock is not
    read. *)
Theorem standing_objects_change_nothing :
  forall T (N : PyNumber T) (self : LineCounter T)
         (tracked_objects : list (TrackedObject T)) (clk : Clock),
    Forall (fun o => previous_positions self !! track_id o = Some (centroid o))
           tracked_objects ->
    update self tracked_objects clk = (self, clk).
Proof.
  intros T N self objs clk Hall. apply update_stationary, Hall.
Qed.

Lemma standing_objects_change_nothing_witness :
  let self := fst (update default_counter
                     [car 1 640 480; car 2 100 520] sample_clock) in
  let tick := [car 2 100 520; car 1 640 480; car 2 100 520] in
  Forall (fun o => previous_positions self !! track_id o = Some (centroid o))
         tick /\
  update self tick sample_clock = (self, sample_clock).
Proof.
  intros self tick.
  assert (Hall : Forall (fun o => previous_positions self !! track_id o
                                  = Some (centroid o)) tick)
    by (repeat constructor).
  split; [exact Hall|].
  exact (standing_objects_change_nothing Z PyInt self tick sample_clock Hall).
Defined.

(** X7. Feeding the same tick twice is the same as feeding it once.  When
    the observations of a tick carry pairwise-distinct identities, a
    second [update] on the same tick leaves the counter and the clock as
    the first one left them. *)
Theorem update_same_tick_twice :
  forall T (N : PyNumber T) (self : LineCounter T)
         (tracked_objects : list (TrackedObject T)) (clk : Clock),
    NoDup (map track_id tracked_objects) ->
    let once := update self tracked_objects clk in
    update (fst once) tracked_objects (snd once) = once.
Proof.
  intros T N self objs clk Hnd once.
  rewrite (surjective_pairing once) at 3.
  apply update_stationary. apply List.Forall_forall. intros o Ho.
  unfold once. rewrite previous_positions_update.
  rewrite (last_seen_distinct objs o Hnd Ho). reflexivity.
Qed.

Lemma update_same_tick_twice_witness :
  let self := fst (update default_counter
                     [car 1 640 480; car 2 100 520] sample_clock) in
  let tick := [car 1 640 520; car 2 100 480] in
  let once := update self tick sample_clock in
  NoDup (map track_id tick) /\
  map untimed (crossing_events (fst once))
    = [(1, "down", "car", (640, 520)); (2, "up", "car", (100, 480))] /\
  update (fst once) tick (snd once) = once.
Proof.
  intros self tick once.
  assert (Hnd : NoDup (map track_id tick)).
  { simpl. repeat constructor; rewrite ?list_elem_of_In; simpl; lia. }
  split; [exact Hnd|]. split; [reflexivity|].
  exact (update_same_tick_twice Z PyInt self tick sample_clock Hnd).
Defined.

(** ** The intersection primitive on integer points *)

Lemma ccw_orient (A B C : Z * Z) : ccw A B C = (0 <? orient A B C)%Z.
Proof.
  unfold ccw, orient. cbn [num_gt num_mul num_sub PyInt].
  rewrite Z.gtb_ltb. apply Bool.eq_true_iff_eq.
  rewrite !Z.ltb_lt. lia.
Qed.

Lemma sides_differ (a b : Z) :
  a <> 0 -> b <> 0 ->
  (negb (Bool.eqb (0 <? a)%Z (0 <? b)%Z) = true <-> a * b < 0).
Proof.
  intros Ha Hb.
  destruct (Z.ltb_spec 0 a), (Z.ltb_spec 0 b); simpl; split;
    try discriminate; try reflexivity; nia.
Qed.

Lemma sides_differ_opp (a b : Z) :
  a <> 0 -> b <> 0 ->
  negb (Bool.eqb (0 <? - a)%Z (0 <? - b)%Z)
  = negb (Bool.eqb (0 <? a)%Z (0 <? b)%Z).
Proof.
  intros Ha Hb.
  destruct (Z.ltb_spec 0 a), (Z.ltb_spec 0 b),
           (Z.ltb_spec 0 (- a)), (Z.ltb_spec 0 (- b)); simpl;
    try reflexivity; lia.
Qed.

(** X8. The intersection test is correct in general position.  For
    integer points of which no three among the triples the test inspects
    are collinear, [line_intersection] returns true exactly when the two
    trajectory endpoints lie strictly on opposite sides of the counting
    line and the two line endpoints lie strictly on opposite sides of the
    trajectory; the answer is then the same when the step is reversed, when
    the line is reversed, and when step and line change roles. *)
Theorem line_intersection_general_position :
  forall A B C D : Z * Z,
    orient A C D <> 0 -> orient B C D <> 0 ->
    orient A B C <> 0 -> orient A B D <> 0 ->
    (line_intersection A B C D = true <->
       orient A C D * orient B C D < 0 /\ orient A B C * orient A B D < 0) /\
    line_intersection B A C D = line_intersection A B C D /\
    line_intersection A B D C = line_intersection A B C D /\
    line_intersection C D A B = line_intersection A B C D.
Proof.
  intros A B C D H1 H2 H3 H4. unfold line_intersection. cbn zeta.
  rewrite !ccw_orient.
  replace (orient B A C) with (- orient A B C) by (unfold orient; ring).
  replace (orient B A D) with (- orient A B D) by (unfold orient; ring).
  replace (orient A D C) with (- orient A C D) by (unfold orient; ring).
  replace (orient B D C) with (- orient B C D) by (unfold orient; ring).
  replace (orient C A B) with (orient A B C) by (unfold orient; ring).
  replace (orient D A B) with (orient A B D) by (unfold orient; ring).
  replace (orient C D A) with (orient A C D) by (unfold orient; ring).
  replace (orient C D B) with (orient B C D) by (unfold orient; ring).
  rewrite !sides_differ_opp by assumption.
  split; [|split; [|split]].
  - rewrite andb_true_iff, !sides_differ by assumption. reflexivity.
  - destruct (0 <? orient A C D)%Z, (0 <? orient B C D)%Z; reflexivity.
  - destruct (0 <? orient A B C)%Z, (0 <? orient A B D)%Z; reflexivity.
  - apply andb_comm.
Qed.

Lemma line_intersection_general_position_witness :
  let A := (0, 0) in let B := (100, 100) in
  let C := (0, 100) in let D := (100, 0) in
  orient A C D <> 0 /\ orient B C D <> 0 /\
  orient A B C <> 0 /\ orient A B D <> 0 /\
  (line_intersection A B C D = true <->
     orient A C D * orient B C D < 0 /\ orient A B C * orient A B D < 0) /\
  line_intersection B A C D = line_intersection A B C D /\
  line_intersection A B D C = line_intersection A B C D /\
  line_intersection C D A B = line_intersection A B C D.
Proof.
  intros A B C D.
  assert (H1 : orient A C D <> 0) by (vm_compute; discriminate).
  assert (H2 : orient B C D <> 0) by (vm_compute; discriminate).
  assert (H3 : orient A B C <> 0) by (vm_compute; discriminate).
  assert (H4 : orient A B D <> 0) by (vm_compute; discriminate).
  do 4 (split; [assumption|]).
  exact (line_intersection_general_position A B C D H1 H2 H3 H4).
Defined.

Lemma ccw_shifted (v A B C : Z * Z) :
  ccw (shifted v A) (shifted v B) (shifted v C) = ccw A B C.
Proof.
  rewrite !ccw_orient. f_equal. unfold orient, shifted. cbn [fst snd]. ring.
Qed.

(** X9. Only relative positions matter to the intersection test.  On
    integer points, moving the trajectory step and the counting line by
    the same vector does not change the answer of [line_intersection]. *)
Theorem line_intersection_translation_invariant :
  forall v A B C D : Z * Z,
    line_intersection (shifted v A) (shifted v B) (shifted v C) (shifted v D)
    = line_intersection A B C D.
Proof.
  intros v A B C D. unfold line_intersection. cbn zeta.
  rewrite !ccw_shifted. reflexivity.
Qed.

(** ** The tracker wrapper *)

Section Tracker.
Import ObjectTracker.
Implicit Types (self : ObjectTracker.t) (track : DeepSort.Track)
  (out : list (TrackedObject float)).

Lemma tracker_update_snoc self tracks track :
  ObjectTracker.update self (tracks ++ [track])
  = update_track (ObjectTracker.update self tracks) track.
Proof. unfold ObjectTracker.update. rewrite fold_left_app. reflexivity. Qed.

Lemma last_30_length l : (length (last_30 l) <= 30)%nat.
Proof.
  unfold last_30. destruct (Nat.ltb_spec 30 (length l)); [|assumption].
  rewrite length_drop. lia.
Qed.

Lemma last_30_snoc_last l c : last (last_30 (l ++ [c])) = Some c.
Proof.
  unfold last_30. destruct (Nat.ltb_spec 30 (length (l ++ [c]))).
  - rewrite length_app in *. cbn [length] in *.
    rewrite drop_app_le by lia. apply last_snoc.
  - apply last_snoc.
Qed.

(** The loop body on an unconfirmed track, and what it does to the
    state and to the output on a confirmed one. *)
Lemma update_track_unconfirmed self out track :
  DeepSort.is_confirmed track = false ->
  update_track (self, out) track = (self, out).
Proof. intros E. unfold update_track. rewrite E. reflexivity. Qed.

Lemma update_track_confirmed self out track :
  DeepSort.is_confirmed track = true ->
  exists o,
    update_track (self, out) track =
      ({| trajectories :=
            <[DeepSort.track_id track :=
                last_30 (get_trajectory self (DeepSort.track_id track)
                         ++ [centroid o])]> (trajectories self);
          all_tracked_ids := {[DeepSort.track_id track]} ∪ all_tracked_ids self |},
       out ++ [o]) /\
    track_id o = DeepSort.track_id track /\
    known_class (class_id o) /\
    class_id o = default 0 (class_id_map !! class_name o) /\
    (DeepSort.get_det_class track = None -> class_name o = "unknown") /\
    calculate_centroid (bbox o) = Ok (centroid o).
Proof.
  intros E. unfold update_track. rewrite E. cbn [negb].
  destruct (DeepSort.to_ltrb track) as [[[l t] r] b].
  match goal with |- exists o, (_, _ ++ [?x]) = _ /\ _ => exists x end.
  split; [reflexivity|]. cbn [track_id class_id class_name bbox centroid].
  split; [reflexivity|]. split; [|split; [|split; [|reflexivity]]].
  - set (cn := match DeepSort.get_det_class track with
               | Some c => c | None => "unknown" end).
    unfold class_id_map, known_class.
    rewrite !lookup_insert. repeat case_decide; cbn; tauto.
  - reflexivity.
  - intros ->. reflexivity.
Qed.
End Tracker.

Section TrackerUpdate.
Import ObjectTracker.
Implicit Types (self : ObjectTracker.t) (track : DeepSort.Track).

Lemma get_trajectory_insert self (i j : Z) l ids :
  get_trajectory {| trajectories := <[j := l]> (trajectories self);
                    all_tracked_ids := ids |} i
  = if decide (j = i) then l else get_trajectory self i.
Proof.
  unfold get_trajectory. cbn [trajectories]. rewrite lookup_insert.
  destruct (decide (j = i)); reflexivity.
Qed.

(** What [update] does, read off the list of tracked objects it returns. *)
Lemma tracker_update_facts self tracks :
  let r := ObjectTracker.update self tracks in
  map track_id (snd r)
    = map DeepSort.track_id (List.filter DeepSort.is_confirmed tracks) /\
  all_tracked_ids (fst r)
    = all_tracked_ids self ∪ list_to_set (map track_id (snd r)) /\
  dom (trajectories (fst r))
    = dom (trajectories self) ∪ list_to_set (map track_id (snd r)) /\
  (forall i, last (get_trajectory (fst r) i) =
     match last_seen i (snd r) with
     | Some o => Some (centroid o)
     | None => last (get_trajectory self i)
     end) /\
  (forall i, i ∉ map track_id (snd r) ->
     get_trajectory (fst r) i = get_trajectory self i) /\
  ((forall i, (length (get_trajectory self i) <= 30)%nat) ->
   forall i, (length (get_trajectory (fst r) i) <= 30)%nat) /\
  Forall (fun o => known_class (class_id o) /\
                   class_id o = default 0 (class_id_map !! class_name o) /\
                   calculate_centroid (bbox o) = Ok (centroid o)) (snd r).
Proof.
  induction tracks as [|track tracks IH] using rev_ind.
  - unfold ObjectTracker.update. cbn [fold_left fst snd map List.filter].
    rewrite list_to_set_nil, !(right_id_L ∅ (∪)).
    split; [reflexivity|]. split; [reflexivity|]. split; [reflexivity|].
    split; [intros i; reflexivity|]. split; [intros i _; reflexivity|].
    split; [intros Hb; exact Hb|constructor].
  - cbn zeta in *. rewrite tracker_update_snoc, List.filter_app.
    destruct (ObjectTracker.update self tracks) as [s1 out1].
    cbn [fst snd] in IH.
    destruct IH as (Hids & Hall & Hdom & Hlast & Hsame & Hbound & Hobj).
    cbn [List.filter].
    destruct (DeepSort.is_confirmed track) eqn:Ec.
    + destruct (update_track_confirmed s1 out1 track Ec)
        as (o & -> & Hid & Hk & Hd & _ & Hc).
      cbn [fst snd trajectories all_tracked_ids].
      rewrite !map_app, list_to_set_app_L, dom_insert_L. cbn [map].
      rewrite Hid, Hids, Hall, Hdom.
      repeat apply conj.
      * reflexivity.
      * rewrite <- Hids. clear. set_solver.
      * rewrite <- Hids. clear. set_solver.
      * intros i. rewrite get_trajectory_insert, last_seen_snoc, Hid.
        destruct (decide (DeepSort.track_id track = i)) as [->|Hne].
        -- rewrite Z.eqb_refl. apply last_30_snoc_last.
        -- destruct (Z.eqb_spec (DeepSort.track_id track) i); [contradiction|].
           apply Hlast.
      * intros i Hi. rewrite get_trajectory_insert.
        destruct (decide (DeepSort.track_id track = i)) as [E|Hne].
        -- subst i. exfalso. apply Hi. apply elem_of_app. right. left.
        -- apply Hsame. intros Hin. apply Hi. apply elem_of_app. left.
           rewrite <- Hids. exact Hin.
      * intros Hb i. rewrite get_trajectory_insert.
        destruct (decide (DeepSort.track_id track = i));
          [apply last_30_length|apply Hbound, Hb].
      * apply Forall_app. split; [exact Hobj|].
        constructor; [repeat split; assumption|constructor].
    + rewrite (update_track_unconfirmed s1 out1 track Ec), app_nil_r.
      cbn [fst snd]. repeat apply conj; assumption.
Qed.
End TrackerUpdate.

Lemma known_class_color (c : Z) :
  get_color_for_class c <> (200, 200, 200) <-> known_class c.
Proof.
  unfold get_color_for_class, colors, known_class.
  rewrite !lookup_insert. repeat case_decide; subst; cbn; split;
    try discriminate; try tauto; try lia.
  all: intros [?|[?|[?|[?|?]]]]; congruence.
Qed.

(** X10. The tracker wrapper reports exactly the confirmed tracks.  The
    identities of the tracked objects [ObjectTracker.update] returns are
    those of the confirmed tracks, in the order DeepSORT reported them;
    [all_tracked_ids] grows by exactly these identities, so
    [get_total_vehicle_count] never decreases; and the trajectory of an
    identity that is not reported, unconfirmed tracks included, is left
    untouched. *)
Theorem tracker_reports_confirmed_tracks :
  forall (self : ObjectTracker.t) (tracks : list DeepSort.Track),
    let r := ObjectTracker.update self tracks in
    map track_id (snd r)
      = map DeepSort.track_id (List.filter DeepSort.is_confirmed tracks) /\
    ObjectTracker.all_tracked_ids (fst r)
      = ObjectTracker.all_tracked_ids self ∪ list_to_set (map track_id (snd r)) /\
    ObjectTracker.get_total_vehicle_count self
      <= ObjectTracker.get_total_vehicle_count (fst r) /\
    (forall i, i ∉ map track_id (snd r) ->
       ObjectTracker.get_trajectory (fst r) i
       = ObjectTracker.get_trajectory self i).
Proof.
  intros self tracks r.
  destruct (tracker_update_facts self tracks)
    as (Hids & Hall & _ & _ & Hsame & _ & _).
  fold r in Hids, Hall, Hsame.
  split; [exact Hids|]. split; [exact Hall|]. split; [|exact Hsame].
  unfold ObjectTracker.get_total_vehicle_count. rewrite Hall.
  apply inj_le, subseteq_size, union_subseteq_l.
Qed.

(** X11. A trajectory ends at the latest centroid.  After
    [ObjectTracker.update], the last point of the trajectory of an
    identity is the centroid of the last tracked object returned for it;
    for an identity with no returned object the last point is what it
    was. *)
Theorem trajectory_ends_at_latest_centroid :
  forall (self : ObjectTracker.t) (tracks : list DeepSort.Track) (i : Z),
    let r := ObjectTracker.update self tracks in
    last (ObjectTracker.get_trajectory (fst r) i) =
      match last_seen i (snd r) with
      | Some o => Some (centroid o)
      | None => last (ObjectTracker.get_trajectory self i)
      end.
Proof.
  intros self tracks i r.
  destruct (tracker_update_facts self tracks) as (_ & _ & _ & Hlast & _).
  apply Hlast.
Qed.

Lemma trajectory_bound_run frames : forall self : ObjectTracker.t,
  (forall i, (length (ObjectTracker.get_trajectory self i) <= 30)%nat) ->
  forall i, (length (ObjectTracker.get_trajectory
                       (ObjectTracker.run self frames) i) <= 30)%nat.
Proof.
  unfold ObjectTracker.run.
  induction frames as [|tracks frames IH]; intros self Hb; cbn [fold_left].
  - exact Hb.
  - apply IH.
    destruct (tracker_update_facts self tracks) as (_ & _ & _ & _ & _ & Hbound & _).
    apply Hbound, Hb.
Qed.

(** X12. Trajectories hold at most 30 points.  If every stored trajectory
    has at most 30 points, as in a new tracker, then so has every
    trajectory after any number of [ObjectTracker.update] calls. *)
Theorem trajectories_hold_at_most_30_points :
  forall (self : ObjectTracker.t) (frames : list (list DeepSort.Track)),
    (forall i, (length (ObjectTracker.get_trajectory self i) <= 30)%nat) ->
    forall i, (length (ObjectTracker.get_trajectory
                         (ObjectTracker.run self frames) i) <= 30)%nat.
Proof.
  intros self frames Hb. apply trajectory_bound_run, Hb.
Qed.

Lemma trajectories_hold_at_most_30_points_witness :
  let frames := [[{| DeepSort.is_confirmed := true; DeepSort.track_id := 4;
                     DeepSort.to_ltrb := (0, 0, 10, 10)%float;
                     DeepSort.get_det_class := Some "car";
                     DeepSort.get_det_conf := None |}]] in
  (forall i, (length (ObjectTracker.get_trajectory ObjectTracker.__init__ i)
              <= 30)%nat) /\
  forall i, (length (ObjectTracker.get_trajectory
                       (ObjectTracker.run ObjectTracker.__init__ frames) i)
             <= 30)%nat.
Proof.
  intros frames.
  assert (Hb : forall i, (length (ObjectTracker.get_trajectory
                                    ObjectTracker.__init__ i) <= 30)%nat).
  { intros i. unfold ObjectTracker.get_trajectory. cbn. rewrite lookup_empty.
    cbn. lia. }
  split; [exact Hb|].
  exact (trajectories_hold_at_most_30_points ObjectTracker.__init__ frames Hb).
Defined.

(** X13. Tracked objects are drawn in the colour of a known class.  Every
    tracked object [ObjectTracker.update] returns has a class id among 0,
    2, 3, 5 and 7 (the entry of its class name in the tracker's table, and 0,
    the id of person, when the name has no entry), so
    [get_color_for_class] never falls back to its default grey for it;
    and its centroid is what [calculate_centroid] returns for its box. *)
Theorem tracked_objects_have_known_class :
  forall (self : ObjectTracker.t) (tracks : list DeepSort.Track),
    Forall (fun o =>
              known_class (class_id o) /\
              class_id o
                = default 0 (ObjectTracker.class_id_map !! class_name o) /\
              get_color_for_class (class_id o) <> (200, 200, 200) /\
              calculate_centroid (bbox o) = Ok (centroid o))
           (snd (ObjectTracker.update self tracks)).
Proof.
  intros self tracks.
  destruct (tracker_update_facts self tracks) as (_ & _ & _ & _ & _ & _ & Hobj).
  eapply Forall_impl; [exact Hobj|]. intros o (Hk & Hd & Hc).
  split; [exact Hk|]. split; [exact Hd|]. split; [|exact Hc].
  apply known_class_color, Hk.
Qed.

(** X14. Classes and colours.  [get_color_for_class] returns the default
    grey exactly for the class ids other than 0, 2, 3, 5 and 7, and gives
    these five pairwise different colours: two class ids with the same
    colour are equal or both unknown. *)
Theorem colors_tell_known_classes_apart :
  forall a b : Z,
    (get_color_for_class a = (200, 200, 200) <-> ~ known_class a) /\
    (get_color_for_class a = get_color_for_class b ->
     a = b \/ (~ known_class a /\ ~ known_class b)).
Proof.
  intros a b. split.
  - rewrite <- known_class_color. split; [tauto|].
    intros Hn. destruct (decide (get_color_for_class a = (200, 200, 200)));
      [assumption|contradiction].
  - unfold get_color_for_class, colors, known_class.
    rewrite !lookup_insert. repeat case_decide; subst; cbn;
      intros E; try discriminate E; try (left; reflexivity);
      right; split; intros [?|[?|[?|[?|?]]]]; congruence.
Qed.

(** ** The frame loop *)

Section Pipeline.

Lemma bookkept_update {T : Type} `{PyNumber T} (s : LineCounter T) objs clk :
  bookkept s -> bookkept (fst (update s objs clk)).
Proof.
  apply (update_lift (fun s s' => bookkept s -> bookkept s')).
  - auto.
  - auto.
  - intros s0 clk0 obj. apply bookkept_body.
Qed.

Lemma dom_previous_positions_update {T : Type} `{PyNumber T}
    (s : LineCounter T) objs clk :
  dom (previous_positions (fst (update s objs clk)))
  = dom (previous_positions s) ∪ list_to_set (map track_id objs).
Proof.
  induction objs as [|obj objs IH] using rev_ind.
  - cbn [map]. rewrite list_to_set_nil, (right_id_L ∅ (∪)). reflexivity.
  - rewrite update_snoc. destruct (update s objs clk) as [s1 c1].
    cbn [fst] in IH.
    destruct (update_obj_fields s1 c1 obj) as (_ & _ & _ & _ & Hp & _).
    rewrite Hp, dom_insert_L, IH, map_app, list_to_set_app_L. cbn [map].
    clear. set_solver.
Qed.

Lemma mirrors_init (config : AppConfig float) vp :
  VideoProcessor.__init__ config = Ok vp ->
  mirrors vp /\ VideoProcessor.config vp = config.
Proof.
  unfold VideoProcessor.__init__.
  destruct (__init__ config) as [counter|e] eqn:Ei; [|discriminate].
  intros [= <-]. split; [|reflexivity].
  unfold mirrors. cbn [VideoProcessor.line_counter VideoProcessor.tracker].
  split; [exact (bookkept_init config counter Ei)|].
  unfold __init__ in Ei.
  destruct (coordinates (line config)) as [|x1 [|y1 [|x2 [|y2 [|z l]]]]];
    try discriminate Ei.
  injection Ei as <-. cbn [previous_positions]. split.
  - rewrite dom_empty_L. reflexivity.
  - intros i. unfold ObjectTracker.get_trajectory. cbn.
    rewrite !lookup_empty. reflexivity.
Qed.

(** One pass: the state reached, whether or not [_visualize] raised. *)
Lemma mirrors_frame save_output (p : VideoProcessor.progress) clk tracks :
  mirrors (VideoProcessor.self p) ->
  let r := VideoProcessor.process_frame save_output (p, clk) tracks in
  let p' := fst (fst r) in
  mirrors (VideoProcessor.self p') /\
  VideoProcessor.config (VideoProcessor.self p')
    = VideoProcessor.config (VideoProcessor.self p) /\
  VideoProcessor.frame_count p' = VideoProcessor.frame_count p + 1 /\
  VideoProcessor.frames_written p'
    = VideoProcessor.frames_written p
      + (match snd r with
         | None => if save_output then 1 else 0
         | Some _ => 0
         end) /\
  (snd r = None <->
   exists drawn,
     VideoProcessor._visualize
       {| VideoProcessor.config := VideoProcessor.config (VideoProcessor.self p);
          VideoProcessor.tracker := VideoProcessor.tracker (VideoProcessor.self p');
          VideoProcessor.line_counter :=
            VideoProcessor.line_counter (VideoProcessor.self p') |}
       (snd (ObjectTracker.update
               (VideoProcessor.tracker (VideoProcessor.self p)) tracks))
     = Ok drawn).
Proof.
  intros (Hb & Hdom & Hlast). unfold VideoProcessor.process_frame.
  pose proof (tracker_update_facts
                (VideoProcessor.tracker (VideoProcessor.self p)) tracks)
    as (_ & Hall & _ & Htl & _).
  destruct (ObjectTracker.update
              (VideoProcessor.tracker (VideoProcessor.self p)) tracks)
    as [tr out].
  cbn [fst snd] in Hall, Htl.
  pose proof (bookkept_update
                (VideoProcessor.line_counter (VideoProcessor.self p)) out clk Hb)
    as Hb'.
  pose proof (dom_previous_positions_update
                (VideoProcessor.line_counter (VideoProcessor.self p)) out clk)
    as Hd'.
  pose proof (previous_positions_update
                (VideoProcessor.line_counter (VideoProcessor.self p)) out clk)
    as Hp'.
  destruct (update (VideoProcessor.line_counter (VideoProcessor.self p)) out clk)
    as [lc clk'].
  cbn [fst] in Hb', Hd', Hp'.
  assert (Hm : mirrors
                 {| VideoProcessor.config :=
                      VideoProcessor.config (VideoProcessor.self p);
                    VideoProcessor.tracker := tr;
                    VideoProcessor.line_counter := lc |}).
  { unfold mirrors. cbn [VideoProcessor.line_counter VideoProcessor.tracker].
    split; [exact Hb'|]. split.
    - rewrite Hd', Hall, Hdom. reflexivity.
    - intros i. rewrite Hp', Htl, Hlast. reflexivity. }
  destruct (VideoProcessor._visualize _ out) as [drawn|e] eqn:Ev;
    cbn [fst snd VideoProcessor.self VideoProcessor.frame_count
         VideoProcessor.frames_written VideoProcessor.config
         VideoProcessor.tracker VideoProcessor.line_counter].
  - split; [exact Hm|]. split; [reflexivity|]. split; [reflexivity|].
    split; [destruct save_output; lia|].
    split; [intros _; exists drawn; exact Ev|reflexivity].
  - split; [exact Hm|]. split; [reflexivity|]. split; [reflexivity|].
    split; [lia|]. split; [discriminate|].
    intros [drawn Hd]. rewrite Ev in Hd. discriminate Hd.
Qed.

(** The loop: the state at which it stops. *)
Lemma mirrors_frames save_output frames :
  forall (p : VideoProcessor.progress) clk,
    mirrors (VideoProcessor.self p) ->
    let r := VideoProcessor.process_frames save_output (p, clk) frames in
    let p' := fst (fst r) in
    mirrors (VideoProcessor.self p') /\
    VideoProcessor.config (VideoProcessor.self p')
      = VideoProcessor.config (VideoProcessor.self p) /\
    match snd r with
    | None =>
        VideoProcessor.frame_count p'
          = VideoProcessor.frame_count p + Z.of_nat (length frames) /\
        VideoProcessor.frames_written p'
          = VideoProcessor.frames_written p
            + (if save_output then Z.of_nat (length frames) else 0)
    | Some _ =>
        VideoProcessor.frame_count p < VideoProcessor.frame_count p'
          <= VideoProcessor.frame_count p + Z.of_nat (length frames) /\
        VideoProcessor.frames_written p'
          = VideoProcessor.frames_written p
            + (if save_output
               then VideoProcessor.frame_count p'
                    - VideoProcessor.frame_count p - 1
               else 0)
    end.
Proof.
  induction frames as [|tracks frames IH]; intros p clk Hm;
    cbn [VideoProcessor.process_frames].
  - cbn [fst snd length]. split; [exact Hm|]. split; [reflexivity|].
    destruct save_output; lia.
  - destruct (mirrors_frame save_output p clk tracks Hm)
      as (Hm1 & Hc1 & Hf1 & Hw1 & _).
    destruct (VideoProcessor.process_frame save_output (p, clk) tracks)
      as [[p1 c1] [e|]].
    + cbn [fst snd] in *. split; [exact Hm1|]. split; [exact Hc1|].
      cbn [length]. destruct save_output; lia.
    + cbn [fst snd] in Hm1, Hc1, Hf1, Hw1.
      destruct (IH p1 c1 Hm1) as (Hm2 & Hc2 & Hrest). cbn zeta.
      split; [exact Hm2|]. split; [congruence|].
      destruct (snd (VideoProcessor.process_frames save_output (p1, c1) frames));
        cbn [length]; destruct save_output; lia.
Qed.

Lemma int_of_float_truncates :
  int_of_float 2.75 = Ok 2 /\
  int_of_float (-2.75) = Ok (-2) /\
  int_of_float 0.25 = Ok 0 /\
  int_of_float (-0) = Ok 0 /\
  int_of_float 1e20 = Ok (10 ^ 20) /\
  int_of_float infinity = Raise OverflowError /\
  int_of_float neg_infinity = Raise OverflowError /\
  int_of_float nan = Raise ValueError.
Proof.
  repeat split; vm_compute; reflexivity.
Qed.

Lemma int_of_float_finite (v : float) :
  PrimFloat.is_finite v = true -> exists n, int_of_float v = Ok n.
Proof.
  unfold PrimFloat.is_finite, int_of_float. intros Hf.
  destruct (PrimFloat.is_nan v); [discriminate Hf|].
  destruct (PrimFloat.is_infinity v); [discriminate Hf|].
  eexists. reflexivity.
Qed.

Lemma ints_of_floats_finite (vs : list float) :
  Forall (fun v => PrimFloat.is_finite v = true) vs ->
  exists ns, ints_of_floats vs = Ok ns /\ length ns = length vs.
Proof.
  induction 1 as [|v vs Hv _ IH]; [exists []; split; reflexivity|].
  destruct (int_of_float_finite v Hv) as [n Hn].
  destruct IH as [ns [Hns Hl]].
  exists (n :: ns). cbn [ints_of_floats length]. rewrite Hn, Hns, Hl.
  split; reflexivity.
Qed.

Lemma draw_boxes_finite (objs : list (TrackedObject float)) :
  Forall (fun o => finite_box (bbox o)) objs ->
  exists boxes, VideoProcessor.draw_boxes objs = Ok boxes.
Proof.
  induction 1 as [|o objs [Hlen Hfin] _ IH]; [exists []; reflexivity|].
  destruct (ints_of_floats_finite (bbox o) Hfin) as [ns [Hns Hl]].
  destruct IH as [boxes Hb]. cbn [VideoProcessor.draw_boxes].
  rewrite Hns, Hb. rewrite Hlen in Hl.
  destruct ns as [|a [|b [|c [|d [|x l]]]]]; try discriminate Hl.
  eexists. reflexivity.
Qed.

Lemma tracker_update_boxes self tracks :
  finite_tracks tracks ->
  Forall (fun o => finite_box (bbox o)) (snd (ObjectTracker.update self tracks)).
Proof.
  unfold finite_tracks.
  induction tracks as [|track tracks IH] using rev_ind; intros Hall.
  - constructor.
  - rewrite tracker_update_snoc.
    apply Forall_app in Hall as [Hall Ht].
    apply Forall_cons in Ht as [Ht _]. specialize (IH Hall).
    destruct (ObjectTracker.update self tracks) as [s1 out1].
    cbn [snd] in IH. unfold ObjectTracker.update_track.
    destruct (DeepSort.is_confirmed track); cbn [negb]; [|exact IH].
    specialize (Ht eq_refl).
    destruct (DeepSort.to_ltrb track) as [[[l t] r] b].
    cbn [snd]. apply Forall_app. split; [exact IH|].
    constructor; [exact Ht|constructor].
Qed.

Lemma process_frames_finite save_output frames :
  forall (p : VideoProcessor.progress) clk,
    finite_box (coordinates (line (VideoProcessor.config (VideoProcessor.self p)))) ->
    Forall finite_tracks frames ->
    snd (VideoProcessor.process_frames save_output (p, clk) frames) = None.
Proof.
  induction frames as [|tracks frames IH]; intros p clk Hline Hall;
    cbn [VideoProcessor.process_frames]; [reflexivity|].
  apply Forall_cons in Hall as [Ht Hall].
  pose proof (tracker_update_boxes
                (VideoProcessor.tracker (VideoProcessor.self p)) tracks Ht) as Hout.
  unfold VideoProcessor.process_frame.
  destruct (ObjectTracker.update
              (VideoProcessor.tracker (VideoProcessor.self p)) tracks)
    as [tr out].
  cbn [snd] in Hout.
  destruct (update (VideoProcessor.line_counter (VideoProcessor.self p)) out clk)
    as [lc clk'].
  unfold VideoProcessor._visualize. cbn [VideoProcessor.config].
  destruct Hline as [Hlen Hfin].
  destruct (ints_of_floats_finite _ Hfin) as [ns [Hns _]].
  destruct (draw_boxes_finite out Hout) as [boxes Hb].
  destruct (coordinates (line (VideoProcessor.config (VideoProcessor.self p))))
    as [|x1 [|y1 [|x2 [|y2 [|z l]]]]] eqn:Ec; try discriminate Hlen.
  rewrite Hns, Hb. apply IH; [|exact Hall].
  cbn [VideoProcessor.self VideoProcessor.config]. rewrite Ec.
  split; [reflexivity|exact Hfin].
Qed.
End Pipeline.

(** X15. The frame loop keeps the counts it reports consistent.  On a
    processor built by [VideoProcessor.__init__], whenever the frame loop
    of [process_video] stops, at the end of the frames or at an exception
    raised by [_visualize]: the total of line crossings is the number of
    logged crossing events and never exceeds the number of unique vehicles
    the tracker reports.  When the loop completes, [frame_count] is the
    number of frames and [frames_written] is the same number when output
    is saved, 0 otherwise; when [_visualize] raises, [frame_count] counts
    the frame of the exception, which is not written.  When the line
    coordinates and the boxes of all confirmed tracks are finite, no
    [int] conversion of [_visualize] raises in any frame, and the loop is
    left only at the end of the frames. *)
Theorem process_video_counts :
  forall (config : AppConfig float) (vp : VideoProcessor.t)
         (save_output : bool) (frames : list (list DeepSort.Track))
         (clk : Clock),
    VideoProcessor.__init__ config = Ok vp ->
    let r := VideoProcessor.process_video save_output vp frames clk in
    let p := fst (fst r) in
    let counter := VideoProcessor.line_counter (VideoProcessor.self p) in
    let tracker := VideoProcessor.tracker (VideoProcessor.self p) in
    get_total_count counter = Z.of_nat (length (crossing_events counter)) /\
    get_total_count counter <= ObjectTracker.get_total_vehicle_count tracker /\
    match snd r with
    | None =>
        VideoProcessor.frame_count p = Z.of_nat (length frames) /\
        VideoProcessor.frames_written p
          = (if save_output then Z.of_nat (length frames) else 0)
    | Some _ =>
        1 <= VideoProcessor.frame_count p <= Z.of_nat (length frames) /\
        VideoProcessor.frames_written p
          = (if save_output then VideoProcessor.frame_count p - 1 else 0)
    end /\
    (finite_box (coordinates (line config)) ->
     Forall finite_tracks frames ->
     snd r = None).
Proof.
  intros config vp save_output frames clk Hinit r p counter tracker.
  destruct (mirrors_init config vp Hinit) as [Hm0 Hc0].
  pose proof (mirrors_frames save_output frames
                {| VideoProcessor.self := vp; VideoProcessor.frame_count := 0;
                   VideoProcessor.frames_written := 0 |} clk Hm0)
    as (Hm & _ & Hcount).
  fold (VideoProcessor.process_video save_output vp frames clk) in Hm, Hcount.
  fold r in Hm, Hcount. fold p in Hm, Hcount.
  cbn [VideoProcessor.frame_count VideoProcessor.frames_written] in Hcount.
  destruct Hm as (Hb & Hdom & _). fold counter in Hb, Hdom. fold tracker in Hdom.
  destruct (bookkept_reading counter Hb) as (Hsub & _ & Hlen & Hsize).
  split; [exact Hlen|]. split.
  { rewrite Hsize. unfold ObjectTracker.get_total_vehicle_count.
    apply inj_le, subseteq_size. rewrite <- Hdom. exact Hsub. }
  split.
  { destruct (snd r); [|exact Hcount].
    destruct Hcount as [Hf Hw]. split; [lia|].
    rewrite Hw. destruct save_output; lia. }
  intros Hline Hfin. unfold r, VideoProcessor.process_video.
  apply process_frames_finite; [|exact Hfin].
  cbn [VideoProcessor.self]. rewrite Hc0. exact Hline.
Qed.

(** X16. The counter's registry mirrors the tracker.  On a processor
    built by [VideoProcessor.__init__], whenever the frame loop of
    [process_video] stops, at the end of the frames or at an exception
    raised by [_visualize], the line counter stores a previous position
    for exactly the identities in the tracker's [all_tracked_ids], and the
    position stored for an identity is the last point of its trajectory in
    the tracker. *)
Theorem counter_registry_mirrors_tracker :
  forall (config : AppConfig float) (vp : VideoProcessor.t)
         (save_output : bool) (frames : list (list DeepSort.Track))
         (clk : Clock),
    VideoProcessor.__init__ config = Ok vp ->
    let r := VideoProcessor.process_video save_output vp frames clk in
    let p := fst (fst r) in
    let counter := VideoProcessor.line_counter (VideoProcessor.self p) in
    let tracker := VideoProcessor.tracker (VideoProcessor.self p) in
    dom (previous_positions counter) = ObjectTracker.all_tracked_ids tracker /\
    forall i, previous_positions counter !! i
              = last (ObjectTracker.get_trajectory tracker i).
Proof.
  intros config vp save_output frames clk Hinit r p counter tracker.
  destruct (mirrors_init config vp Hinit) as [Hm0 _].
  pose proof (mirrors_frames save_output frames
                {| VideoProcessor.self := vp; VideoProcessor.frame_count := 0;
                   VideoProcessor.frames_written := 0 |} clk Hm0)
    as ((_ & Hdom & Hlast) & _).
  split; [exact Hdom|exact Hlast].
Qed.

(** ** Decoding the FourCC code *)

Lemma fourcc_byte_div (fourcc i : Z) :
  0 <= i -> fourcc_byte fourcc i = (fourcc / 2 ^ (8 * i)) mod 256.
Proof.
  intros Hi. unfold fourcc_byte.
  rewrite Z.shiftr_div_pow2 by lia.
  change 255 with (Z.ones 8). rewrite Z.land_ones by lia. reflexivity.
Qed.

Lemma chr_byte (b : Z) : 0 <= b < 256 -> chr b = Ok b.
Proof.
  intros Hb. unfold chr.
  destruct (Z.leb_spec 0 b); [|lia]. destruct (Z.ltb_spec b 1114112); [|lia].
  reflexivity.
Qed.

(** X17. The FourCC decoding never fails and reads the four low bytes.
    For every integer code, negative ones included, the decoding in
    [check_video] yields exactly four characters with code points below
    256 ([chr] never raises), namely the base-256 digits of the code
    modulo 2^32, lowest first; so a code packed from four bytes, lowest
    first, decodes to these four bytes. *)
Theorem fourcc_str_reads_four_bytes :
  forall fourcc : Z,
    (exists c0 c1 c2 c3,
       fourcc_str fourcc = Ok [c0; c1; c2; c3] /\
       0 <= c0 < 256 /\ 0 <= c1 < 256 /\ 0 <= c2 < 256 /\ 0 <= c3 < 256 /\
       c0 + 256 * c1 + 65536 * c2 + 16777216 * c3 = fourcc mod 4294967296) /\
    (forall c0 c1 c2 c3,
       0 <= c0 < 256 -> 0 <= c1 < 256 -> 0 <= c2 < 256 -> 0 <= c3 < 256 ->
       fourcc = c0 + 256 * c1 + 65536 * c2 + 16777216 * c3 ->
       fourcc_str fourcc = Ok [c0; c1; c2; c3]).
Proof.
  intros fourcc.
  assert (E0 : fourcc_byte fourcc 0 = fourcc mod 256).
  { rewrite fourcc_byte_div by lia. change (2 ^ (8 * 0)) with 1.
    rewrite Z.div_1_r. reflexivity. }
  assert (E1 : fourcc_byte fourcc 1 = (fourcc / 256) mod 256)
    by (rewrite fourcc_byte_div by lia; reflexivity).
  assert (E2 : fourcc_byte fourcc 2 = (fourcc / 65536) mod 256)
    by (rewrite fourcc_byte_div by lia; reflexivity).
  assert (E3 : fourcc_byte fourcc 3 = (fourcc / 16777216) mod 256)
    by (rewrite fourcc_byte_div by lia; reflexivity).
  assert (R0 : 0 <= fourcc_byte fourcc 0 < 256)
    by (rewrite E0; apply Z.mod_pos_bound; lia).
  assert (R1 : 0 <= fourcc_byte fourcc 1 < 256)
    by (rewrite E1; apply Z.mod_pos_bound; lia).
  assert (R2 : 0 <= fourcc_byte fourcc 2 < 256)
    by (rewrite E2; apply Z.mod_pos_bound; lia).
  assert (R3 : 0 <= fourcc_byte fourcc 3 < 256)
    by (rewrite E3; apply Z.mod_pos_bound; lia).
  assert (Hstr : fourcc_str fourcc =
                 Ok [fourcc_byte fourcc 0; fourcc_byte fourcc 1;
                     fourcc_byte fourcc 2; fourcc_byte fourcc 3]).
  { unfold fourcc_str. rewrite !chr_byte by assumption. reflexivity. }
  split.
  - exists (fourcc_byte fourcc 0), (fourcc_byte fourcc 1),
           (fourcc_byte fourcc 2), (fourcc_byte fourcc 3).
    repeat (split; [assumption|]).
    rewrite E0, E1, E2, E3. clear. Z.to_euclidean_division_equations. lia.
  - intros c0 c1 c2 c3 H0 H1 H2 H3 E. rewrite Hstr. do 4 f_equal.
    + rewrite E0, E. clear - H0 H1 H2 H3. Z.to_euclidean_division_equations. lia.
    + rewrite E1, E. clear - H0 H1 H2 H3. Z.to_euclidean_division_equations. lia.
    + rewrite E2, E. clear - H0 H1 H2 H3. Z.to_euclidean_division_equations. lia.
    + f_equal. rewrite E3, E. clear - H0 H1 H2 H3.
      Z.to_euclidean_division_equations. lia.
Qed.

(** ** Ticks and the frame loop on sample data *)

Lemma flat_map_agree {A B : Type} (f g : A -> list B) (l : list A) :
  (forall x, In x l -> f x = g x) -> flat_map f l = flat_map g l.
Proof.
  induction l as [|a l IH]; intros Hfg; [reflexivity|].
  cbn [flat_map]. rewrite (Hfg a) by (left; reflexivity).
  rewrite IH; [reflexivity|]. intros x Hx. apply Hfg. right. exact Hx.
Qed.

Section Judged.
Context {T : Type} `{PyNumber T}.

Lemma update_judged objs : forall (s : LineCounter T) clk,
  NoDup (map track_id objs) ->
  exists new,
    crossing_events (fst (update s objs clk)) = crossing_events s ++ new /\
    map untimed new = flat_map (judged s) objs.
Proof.
  unfold update.
  induction objs as [|o l IH]; intros s clk Hnd; cbn [fold_left flat_map].
  - exists []. rewrite app_nil_r. split; reflexivity.
  - cbn [map] in Hnd. apply NoDup_cons in Hnd as [Hno Hnd].
    destruct (update_obj (s, clk) o) as [s1 c1] eqn:E1.
    destruct (IH s1 c1 Hnd) as [n2 [E2 M2]].
    pose proof (update_obj_fields s clk o) as Hf. rewrite E1 in Hf.
    cbn [fst] in Hf. destruct Hf as (_ & _ & _ & _ & _ & Hc).
    assert (Hsame : flat_map (judged s1) l = flat_map (judged s) l).
    { apply flat_map_agree. intros o' Ho'. unfold judged.
      pose proof (counted_frame s clk o o') as Hfr. rewrite E1 in Hfr.
      cbn [fst] in Hfr. rewrite Hfr; [reflexivity|].
      intros Eid. apply Hno. rewrite Eid. apply list_elem_of_In, in_map, Ho'. }
    unfold judged at 1.
    destruct (counted s o) as [d|].
    + destruct Hc as (_ & Hev & _). eexists. split.
      * rewrite E2, Hev, <- app_assoc. reflexivity.
      * rewrite map_app, M2, Hsame. reflexivity.
    + destruct Hc as (_ & Hev & _). exists n2. split.
      * rewrite E2, Hev. reflexivity.
      * rewrite M2, Hsame. reflexivity.
Qed.
End Judged.

(** X18. A tick is judged against the state before it.  For a tick of
    pairwise-distinct identities, [update] appends, in tick order, one
    event for exactly those observations whose identity has a stored
    position in the state before the tick, whose step from that position
    intersects the line, and whose identity is not yet in [crossed_ids];
    the event carries the direction [_determine_direction] gives for that
    step, the class name and the new centroid. *)
Theorem update_judges_against_state_before :
  forall T (N : PyNumber T) (self : LineCounter T)
         (tracked_objects : list (TrackedObject T)) (clk : Clock),
    NoDup (map track_id tracked_objects) ->
    exists new_events,
      crossing_events (fst (update self tracked_objects clk))
        = crossing_events self ++ new_events /\
      map untimed new_events =
        flat_map
          (fun o =>
             match previous_positions self !! track_id o with
             | Some prev_pos =>
                 if line_intersection prev_pos (centroid o)
                      (line_start self) (line_end self)
                    && negb (bool_decide (track_id o ∈ crossed_ids self))
                 then [(track_id o,
                        _determine_direction self prev_pos (centroid o),
                        class_name o, centroid o)]
                 else []
             | None => []
             end) tracked_objects.
Proof.
  intros T N self objs clk Hnd.
  destruct (update_judged objs self clk Hnd) as [new [He Hm]].
  exists new. split; [exact He|]. rewrite Hm. apply flat_map_agree.
  intros o _. unfold judged, counted.
  destruct (previous_positions self !! track_id o) as [p|]; [|reflexivity].
  destruct (line_intersection _ _ _ _); [|reflexivity].
  destruct (decide (track_id o ∈ crossed_ids self)) as [Hi|Hi].
  - rewrite (bool_decide_eq_true_2 _ Hi). reflexivity.
  - rewrite (bool_decide_eq_false_2 _ Hi). reflexivity.
Qed.

Lemma update_judges_against_state_before_witness :
  let self := fst (update default_counter
                     [car 1 640 480; car 2 100 520; car 3 50 50] sample_clock) in
  let tick := [car 1 640 520; car 3 60 60; car 2 100 480] in
  NoDup (map track_id tick) /\
  exists new_events,
    crossing_events (fst (update self tick sample_clock))
      = crossing_events self ++ new_events /\
    map untimed new_events =
      flat_map
        (fun o =>
           match previous_positions self !! track_id o with
           | Some prev_pos =>
               if line_intersection prev_pos (centroid o)
                    (line_start self) (line_end self)
                  && negb (bool_decide (track_id o ∈ crossed_ids self))
               then [(track_id o,
                      _determine_direction self prev_pos (centroid o),
                      class_name o, centroid o)]
               else []
           | None => []
           end) tick.
Proof.
  intros self tick.
  assert (Hnd : NoDup (map track_id tick)).
  { simpl. repeat constructor; rewrite ?list_elem_of_In; simpl; lia. }
  split; [exact Hnd|].
  exact (update_judges_against_state_before Z PyInt self tick sample_clock Hnd).
Defined.

Lemma process_video_counts_witness :
  let vp := {| VideoProcessor.config := diagonal_config;
               VideoProcessor.tracker := ObjectTracker.__init__;
               VideoProcessor.line_counter := diagonal_counter |} in
  VideoProcessor.__init__ diagonal_config = Ok vp /\
  (let r := VideoProcessor.process_video true vp sample_frames sample_clock in
   let p := fst (fst r) in
   let counter := VideoProcessor.line_counter (VideoProcessor.self p) in
   let tracker := VideoProcessor.tracker (VideoProcessor.self p) in
   snd r = None /\
   map untimed (crossing_events counter)
     = [(1, "right", "car", (100, 100)%float)] /\
   VideoProcessor.frame_count p = 2 /\
   VideoProcessor.frames_written p = 2 /\
   get_total_count counter = Z.of_nat (length (crossing_events counter)) /\
   get_total_count counter <= ObjectTracker.get_total_vehicle_count tracker) /\
  (let r := VideoProcessor.process_video true vp unbounded_frames sample_clock in
   let p := fst (fst r) in
   let counter := VideoProcessor.line_counter (VideoProcessor.self p) in
   let tracker := VideoProcessor.tracker (VideoProcessor.self p) in
   snd r = Some OverflowError /\
   VideoProcessor.frame_count p = 2 /\
   VideoProcessor.frames_written p = 1 /\
   get_total_count counter = Z.of_nat (length (crossing_events counter)) /\
   get_total_count counter <= ObjectTracker.get_total_vehicle_count tracker).
Proof.
  intros vp. split; [reflexivity|]. split.
  - pose proof (process_video_counts diagonal_config vp true sample_frames
                  sample_clock eq_refl) as (Hlen & Hle & _ & Hfin).
    assert (Hnone : snd (VideoProcessor.process_video true vp sample_frames
                           sample_clock) = None).
    { apply Hfin;
        repeat first [ apply List.Forall_nil | apply List.Forall_cons
                     | reflexivity | split | intros _ ]. }
    split; [exact Hnone|]. split; [vm_compute; reflexivity|].
    split; [vm_compute; reflexivity|]. split; [vm_compute; reflexivity|].
    split; [exact Hlen|exact Hle].
  - pose proof (process_video_counts diagonal_config vp true unbounded_frames
                  sample_clock eq_refl) as (Hlen & Hle & _).
    split; [vm_compute; reflexivity|]. split; [vm_compute; reflexivity|].
    split; [vm_compute; reflexivity|]. split; [exact Hlen|exact Hle].
Defined.

Lemma counter_registry_mirrors_tracker_witness :
  let vp := {| VideoProcessor.config := diagonal_config;
               VideoProcessor.tracker := ObjectTracker.__init__;
               VideoProcessor.line_counter := diagonal_counter |} in
  let r := VideoProcessor.process_video false vp unbounded_frames sample_clock in
  let p := fst (fst r) in
  let counter := VideoProcessor.line_counter (VideoProcessor.self p) in
  let tracker := VideoProcessor.tracker (VideoProcessor.self p) in
  VideoProcessor.__init__ diagonal_config = Ok vp /\
  snd r = Some OverflowError /\
  previous_positions counter !! 1 = Some (infinity, 100)%float /\
  previous_positions counter !! 2 = Some (2, 2)%float /\
  dom (previous_positions counter) = ObjectTracker.all_tracked_ids tracker /\
  forall i, previous_positions counter !! i
            = last (ObjectTracker.get_trajectory tracker i).
Proof.
  intros vp r p counter tracker. split; [reflexivity|].
  split; [vm_compute; reflexivity|].
  split; [vm_compute; reflexivity|].
  split; [vm_compute; reflexivity|].
  exact (counter_registry_mirrors_tracker diagonal_config vp false
           unbounded_frames sample_clock eq_refl).
Defined.
